(** * init_motor_data: the provisioning script of the motor-diagnostics demo

    A shallow embedding of [scripts/init_motor_data.py] and the properties of
    its transport adapter ([api_request]) and of its pipeline ([main]).

    - JSON values are an inductive type; a Python [dict] is an association
      list in insertion order, a Python [None] is [JNull].
    - The remote service is an oracle from the history of exchanges and the
      current request to what [urllib.request.urlopen] does with it.
    - The script is a computation in a state-and-exception monad: the state
      is the list of HTTP exchanges made so far and the lines printed so far,
      an uncaught Python exception ends the run and keeps the state. *)

From Stdlib Require Import ZArith List String Ascii Bool Lia.
From Stdlib Require Import Floats.SpecFloat.
Import ListNotations.

Set Warnings "-register-all".
Local Open Scope string_scope.
Local Open Scope list_scope.
Local Open Scope Z_scope.

(** ** Values *)

(** What [json.loads] produces and [json.dumps] consumes.  A Python [float]
    is a binary floating-point datum ([spec_float]); the script only carries
    floats around, it never computes with them. *)
Inductive json : Type :=
| JNull
| JBool (b : bool)
| JInt (n : Z)
| JFloat (f : spec_float)
| JString (s : string)
| JArray (xs : list json)
| JObject (kv : list (string * json)).

(** The uncaught exceptions the script can end with. *)
Inductive exn : Type :=
| TypeError
| KeyError
| IndexError
| AttributeError
| URLError
| ValueError
| DictSliceError
    (** the exception of slicing a dict: a [TypeError] (unhashable slice) up
        to Python 3.11, a [KeyError] from Python 3.12 *).

Inductive outcome (A : Type) : Type :=
| Returned (a : A)
| Raised (e : exn).
Arguments Returned {A} a.
Arguments Raised {A} e.

(** [d[key]] and [key in d] on a dict: the first binding of the key. *)
Fixpoint lookup (key : string) (kv : list (string * json)) : option json :=
  match kv with
  | [] => None
  | (k, v) :: rest => if String.eqb key k then Some v else lookup key rest
  end.

(** Python truth value, as used by [if data], [if token], [not created_models]
    and [if detail.get('model')]. *)
Definition truthy (v : json) : bool :=
  match v with
  | JNull => false
  | JBool b => b
  | JInt n => negb (n =? 0)
  | JFloat (S754_zero _) => false
  | JFloat _ => true
  | JString s => negb (String.eqb s "")
  | JArray xs => match xs with [] => false | _ => true end
  | JObject kv => match kv with [] => false | _ => true end
  end.

(** [v[key]] with a string key. *)
Definition getitem (v : json) (key : string) : outcome json :=
  match v with
  | JObject kv =>
      match lookup key kv with
      | Some x => Returned x
      | None => Raised KeyError
      end
  | _ => Raised TypeError
  end.

(** [v[i]] with a non-negative integer literal.  A dict made by [json.loads]
    has string keys only, so an integer key is never found. *)
Definition getindex (v : json) (i : nat) : outcome json :=
  match v with
  | JArray xs =>
      match nth_error xs i with
      | Some x => Returned x
      | None => Raised IndexError
      end
  | JString s =>
      match String.get i s with
      | Some c => Returned (JString (String c EmptyString))
      | None => Raised IndexError
      end
  | JObject _ => Raised KeyError
  | _ => Raised TypeError
  end.

Fixpoint string_prefix (n : nat) (s : string) : string :=
  match n, s with
  | S m, String c rest => String c (string_prefix m rest)
  | _, _ => EmptyString
  end.

(** [v[:n]]: a string or a list can be sliced, nothing else that
    [json.loads] makes can; the class of the exception for a dict depends
    on the version of Python. *)
Definition slice_to (v : json) (n : nat) : outcome json :=
  match v with
  | JString s => Returned (JString (string_prefix n s))
  | JArray xs => Returned (JArray (firstn n xs))
  | JObject _ => Raised DictSliceError
  | _ => Raised TypeError
  end.

(** [len(v)]. *)
Definition len (v : json) : outcome Z :=
  match v with
  | JString s => Returned (Z.of_nat (String.length s))
  | JArray xs => Returned (Z.of_nat (List.length xs))
  | JObject kv => Returned (Z.of_nat (List.length kv))
  | _ => Raised TypeError
  end.

Fixpoint chars (s : string) : list json :=
  match s with
  | EmptyString => []
  | String c rest => JString (String c EmptyString) :: chars rest
  end.

(** The items a [for x in v] loop visits. *)
Definition iter (v : json) : outcome (list json) :=
  match v with
  | JArray xs => Returned xs
  | JString s => Returned (chars s)
  | JObject kv => Returned (map (fun p => JString (fst p)) kv)
  | _ => Raised TypeError
  end.

(** [v.get(key, default)]: only a dict has the method. *)
Definition dict_get (v : json) (key : string) (default : json) : outcome json :=
  match v with
  | JObject kv =>
      match lookup key kv with
      | Some x => Returned x
      | None => Returned default
      end
  | _ => Raised AttributeError
  end.

(** [key in v], for a dict [v]. *)
Definition has_key (key : string) (v : json) : bool :=
  match v with
  | JObject kv => match lookup key kv with Some _ => true | None => false end
  | _ => false
  end.

(** [list(v.keys())], for a dict [v]. *)
Definition keys (v : json) : list string :=
  match v with
  | JObject kv => map fst kv
  | _ => []
  end.

(** [key in table] for a dict literal [table] with string keys: a list or a
    dict is unhashable, any other value that is not one of the keys is
    simply absent. *)
Definition in_table (key : json) (table : list (string * json)) : outcome bool :=
  match key with
  | JString s =>
      Returned (match lookup s table with Some _ => true | None => false end)
  | JArray _ | JObject _ => Raised TypeError
  | _ => Returned false
  end.

(** [table[key]] for the same. *)
Definition table_get (table : list (string * json)) (key : json) : outcome json :=
  match key with
  | JString s =>
      match lookup s table with
      | Some v => Returned v
      | None => Raised KeyError
      end
  | JArray _ | JObject _ => Raised TypeError
  | _ => Raised KeyError
  end.

Definition is_str (v : json) : bool :=
  match v with JString _ => true | _ => false end.

Definition is_dict (v : json) : bool :=
  match v with JObject _ => true | _ => false end.

Definition is_list (v : json) : bool :=
  match v with JArray _ => true | _ => false end.

(** ** Formatted text *)

(** An f-string after evaluation of its expressions: literal text and the
    values spliced in.  [Fmt v] stands for the text of [str(v)], [FmtKeys ks]
    for the text of a [dict_keys] view. *)
Inductive piece : Type :=
| Lit (s : string)
| Fmt (v : json)
| FmtKeys (ks : list string).

Definition fstring : Type := list piece.

(** The text of an f-string whose spliced values are all strings
    ([str(s)] is [s] itself). *)
Fixpoint text_of (f : fstring) : option string :=
  match f with
  | [] => Some ""
  | Lit s :: rest => option_map (String.append s) (text_of rest)
  | Fmt (JString s) :: rest => option_map (String.append s) (text_of rest)
  | _ :: _ => None
  end.

(** ** The remote service *)

Record request : Type := Request {
  req_method : string;
  req_url : fstring;
  req_headers : list (string * fstring);
  (** [Some d]: the bytes of [json.dumps(d)]; [None]: no body. *)
  req_body : option json
}.

(** What [urlopen] does with a request. *)
Inductive http_result : Type :=
| Responded (status : Z) (resp_data : json)
    (** a response whose body [json.loads] parses to [resp_data] *)
| HTTPError (code : Z) (text : string)
    (** [urllib.error.HTTPError], with the decoded body *)
| Failed (e : exn)
    (** any other exception of the [try] block: no connection, a body
        that is not JSON *).

Definition exchange : Type := (request * http_result)%type.

Record world : Type := World {
  (** the service, given the exchanges so far *)
  server : list exchange -> request -> http_result;
  (** [int(time.time() * 1000)] at the one place the script reads the clock *)
  now_ms : Z
}.

Record state : Type := State {
  exchanges : list exchange;
  stdout : list fstring
}.

Definition initial : state := State [] [].

(** ** The monad of the script *)

Definition M (A : Type) : Type := world -> state -> outcome A * state.

Definition ret {A} (a : A) : M A := fun _ st => (Returned a, st).

Definition raise {A} (e : exn) : M A := fun _ st => (Raised e, st).

Definition bind {A B} (m : M A) (k : A -> M B) : M B :=
  fun w st =>
    match m w st with
    | (Returned a, st') => k a w st'
    | (Raised e, st') => (Raised e, st')
    end.

Declare Scope script_scope.
Delimit Scope script_scope with script.
Notation "x <- m ;; k" := (bind m (fun x => k))
  (at level 100, m at next level, right associativity) : script_scope.
Notation "' p <- m ;; k" := (bind m (fun x => match x with p => k end))
  (at level 100, p pattern, m at next level, right associativity) : script_scope.
Notation "m ;; k" := (bind m (fun _ => k))
  (at level 100, right associativity) : script_scope.
Local Open Scope script_scope.

(** A pure expression that may raise. *)
Definition eval {A} (o : outcome A) : M A :=
  match o with
  | Returned a => ret a
  | Raised e => raise e
  end.

Definition print (line : fstring) : M unit :=
  fun _ st => (Returned tt, State (exchanges st) (stdout st ++ [line])).

Definition urlopen (req : request) : M http_result :=
  fun w st =>
    let r := server w (exchanges st) req in
    (Returned r, State (exchanges st ++ [(req, r)]) (stdout st)).

Definition time_ms : M Z := fun w st => (Returned (now_ms w), st).

(** [time.sleep]: nothing the model observes. *)
Definition sleep (seconds : Z) : M unit := ret tt.

(** [for x in xs: body x]. *)
Fixpoint for_each {A} (xs : list A) (body : A -> M unit) : M unit :=
  match xs with
  | [] => ret tt
  | x :: rest => body x ;; for_each rest body
  end.

(** A loop that appends to a list as it goes. *)
Fixpoint collect {A} (xs : list A) (acc : list json)
    (body : A -> list json -> M (list json)) : M (list json) :=
  match xs with
  | [] => ret acc
  | x :: rest => acc' <- body x acc ;; collect rest acc' body
  end.

(** ** The transport adapter *)

Definition API_BASE : string := "http://localhost:5000/api".

(** The pagination unwrapping of lines 25-27: a dict with an ['items'] key
    gives [resp_data['items']], anything else is returned as it is. *)
Definition unwrap_items (resp_data : json) : json :=
  match resp_data with
  | JObject kv =>
      match lookup "items" kv with
      | Some items => items
      | None => resp_data
      end
  | _ => resp_data
  end.

(** The request [api_request] builds (lines 13-19).  [data] and [token]
    default to [None], that is [JNull]. *)
Definition build_request (method : string) (endpoint : fstring)
    (data token : json) : request :=
  let url := Lit API_BASE :: endpoint in
  let headers := [("Content-Type", [Lit "application/json"])] in
  let headers :=
    if truthy token
    then headers ++ [("Authorization", [Lit "Bearer "; Fmt token])]
    else headers in
  let body := if truthy data then Some data else None in
  Request method url headers body.

Definition api_request (method : string) (endpoint : fstring)
    (data token : json) : M (Z * json) :=
  r <- urlopen (build_request method endpoint data token) ;;
  match r with
  | Responded status resp_data => ret (status, unwrap_items resp_data)
  | HTTPError code text => ret (code, JString text)
  | Failed e => raise e
  end.

(** ** The pipeline *)

Definition nl : string := String "010"%char EmptyString.

(** *** 1. Login (lines 32-36) *)

Definition login_payload : json :=
  JObject [("username", JString "admin"); ("password", JString "admin123")].

Definition login : M json :=
  print [Lit "=== 1. Login ==="] ;;
  '(status, resp) <- api_request "POST" [Lit "/auth/login"] login_payload JNull ;;
  data <- eval (getitem resp "data") ;;
  token <- eval (getitem data "token") ;;
  shown <- eval (slice_to token 50) ;;
  print [Lit "Token obtained: "; Fmt shown; Lit "..."] ;;
  ret token.

(** *** 2. Create Motor Models (lines 38-86) *)

Definition float_of (m : positive) (e : Z) : json := JFloat (S754_finite false m e).

Definition motor_models : list json :=
  [ JObject
      [ ("name", JString "Standard Induction Motor 15kW");
        ("description", JString "Three-phase induction motor for industrial drive");
        ("type", JInt 0);
        ("ratedPower", float_of 15 0);
        ("ratedVoltage", JInt 380);
        ("ratedCurrent", JInt 30);
        ("ratedSpeed", JInt 1480);
        ("ratedFrequency", JInt 50);
        ("polePairs", JInt 2);
        ("vfdModel", JString "ABB ACS580");
        ("bearingModel", JString "SKF 6308");
        ("bearingRollingElements", JInt 8);
        ("bearingBallDiameter", float_of 127 (-3));
        ("bearingPitchDiameter", float_of 117 (-1));
        ("bearingContactAngle", JInt 0) ];
    JObject
      [ ("name", JString "VFD Motor 7.5kW");
        ("description", JString "Variable frequency drive motor");
        ("type", JInt 0);
        ("ratedPower", float_of 15 (-1));
        ("ratedVoltage", JInt 380);
        ("ratedCurrent", JInt 15);
        ("ratedSpeed", JInt 1450);
        ("ratedFrequency", JInt 50);
        ("polePairs", JInt 2);
        ("vfdModel", JString "Siemens G120");
        ("bearingModel", JString "SKF 6206") ] ].

(** One round of the loop of lines 74-80. *)
Definition create_model (token model : json) (created_models : list json)
    : M (list json) :=
  '(status, resp) <- api_request "POST" [Lit "/motor-models"] model token ;;
  if status =? 201 then
    let created_models := created_models ++ [resp] in
    name <- eval (getitem resp "name") ;;
    model_id <- eval (getitem resp "modelId") ;;
    print [Lit "  Created: "; Fmt name; Lit " ["; Fmt model_id; Lit "]"] ;;
    ret created_models
  else
    name <- eval (getitem model "name") ;;
    print [Lit "  Error creating "; Fmt name; Lit ": "; Fmt resp] ;;
    ret created_models.

Definition create_motor_models (token : json) : M json :=
  print [Lit nl; Lit "=== 2. Create Motor Models ==="] ;;
  created_models <- collect motor_models [] (create_model token) ;;
  if negb (truthy (JArray created_models)) then
    print [Lit "No models created, checking existing..."] ;;
    '(status, resp) <- api_request "GET" [Lit "/motor-models"] JNull token ;;
    let created_models := resp in
    n <- eval (len created_models) ;;
    print [Lit "  Found "; Fmt (JInt n); Lit " existing models"] ;;
    ret created_models
  else ret (JArray created_models).

(** *** 3. Get existing devices (lines 88-103) *)

Definition show_device (d : json) : M unit :=
  if is_dict d then
    device_id <- eval (dict_get d "deviceId" (JString "N/A")) ;;
    name <- eval (dict_get d "name" (JString "N/A")) ;;
    print [Lit "    - "; Fmt device_id; Lit ": "; Fmt name]
  else ret tt.

Definition get_devices (token : json) : M json :=
  print [Lit nl; Lit "=== 3. Get Devices ==="] ;;
  '(status, devices) <- api_request "GET" [Lit "/devices"] JNull token ;;
  devices <-
    (if is_str devices then
       raw <- eval (slice_to devices 200) ;;
       print [Lit "  Raw response: "; Fmt raw] ;;
       ret (JArray [])
     else if is_dict devices then
       print [Lit "  Response keys: "; FmtKeys (keys devices)] ;;
       if has_key "data" devices then
         data <- eval (getitem devices "data") ;;
         ret (if is_list data then data else JArray [])
       else ret devices
     else ret devices) ;;
  n <- eval (len devices) ;;
  print [Lit "  Found "; Fmt (JInt n); Lit " devices"] ;;
  ds <- eval (iter devices) ;;
  for_each ds show_device ;;
  ret devices.

(** *** 4. Create Motor Instances (lines 105-139) *)

(** The list literal of lines 107-124: its subscripts are evaluated in the
    order they are written. *)
Definition motor_instance (model_id : json)
    (device_id name location install_date asset_number : string) : json :=
  JObject
    [ ("modelId", model_id);
      ("deviceId", JString device_id);
      ("name", JString name);
      ("location", JString location);
      ("installDate", JString install_date);
      ("assetNumber", JString asset_number) ].

Definition motor_instances (created_models : json) : M (list json) :=
  first <- eval (getindex created_models 0) ;;
  model_id_1 <- eval (getitem first "modelId") ;;
  n <- eval (len created_models) ;;
  model_id_2 <-
    (if n >? 1 then
       second <- eval (getindex created_models 1) ;;
       eval (getitem second "modelId")
     else
       first <- eval (getindex created_models 0) ;;
       eval (getitem first "modelId")) ;;
  ret [ motor_instance model_id_1 "Motor-001" "Main Drive Motor #1"
          "Workshop A - Line 1" "2024-01-15" "MTR-2024-001";
        motor_instance model_id_2 "SIM-PLC-001" "Auxiliary Motor #2"
          "Workshop A - Line 2" "2024-03-20" "MTR-2024-002" ].

(** One round of the loop of lines 127-133. *)
Definition create_instance (token inst : json) (created_instances : list json)
    : M (list json) :=
  '(status, resp) <- api_request "POST" [Lit "/motor-instances"] inst token ;;
  if status =? 201 then
    let created_instances := created_instances ++ [resp] in
    name <- eval (getitem resp "name") ;;
    instance_id <- eval (getitem resp "instanceId") ;;
    print [Lit "  Created: "; Fmt name; Lit " ["; Fmt instance_id; Lit "]"] ;;
    ret created_instances
  else
    name <- eval (getitem inst "name") ;;
    print [Lit "  Error creating "; Fmt name; Lit ": "; Fmt resp] ;;
    ret created_instances.

Definition create_motor_instances (token created_models : json) : M json :=
  print [Lit nl; Lit "=== 4. Create Motor Instances ==="] ;;
  motor_instances <- motor_instances created_models ;;
  created_instances <- collect motor_instances [] (create_instance token) ;;
  if negb (truthy (JArray created_instances)) then
    print [Lit "No instances created, checking existing..."] ;;
    '(status, resp) <- api_request "GET" [Lit "/motor-instances"] JNull token ;;
    let created_instances := resp in
    n <- eval (len created_instances) ;;
    print [Lit "  Found "; Fmt (JInt n); Lit " existing instances"] ;;
    ret created_instances
  else ret (JArray created_instances).

(** *** 5. Create Parameter Mappings (lines 141-171) *)

Definition mapping (parameter : Z) (tag_id : string) (scale_factor : json)
    (used_for_diagnosis : bool) : json :=
  JObject
    [ ("parameter", JInt parameter);
      ("tagId", JString tag_id);
      ("scaleFactor", scale_factor);
      ("offset", JInt 0);
      ("usedForDiagnosis", JBool used_for_diagnosis) ].

Definition parameter_mappings : list (string * json) :=
  [ ("Motor-001",
     JArray
       [ mapping 40 "Motor1_Temp" (float_of 1 0) true;
         mapping 3 "Motor1_Current" (float_of 1 0) true;
         mapping 21 "Motor1_Speed" (JInt 30) true;
         mapping 20 "Torque" (float_of 1 0) true ]);
    ("SIM-PLC-001",
     JArray
       [ mapping 40 "Motor1_Temp" (float_of 1 0) true;
         mapping 3 "Motor1_Current" (float_of 1 0) true;
         mapping 21 "Motor1_Speed" (JInt 30) true;
         mapping 34 "Motor1_Running" (float_of 1 0) false ]) ].

(** One round of the loop of lines 158-171. *)
Definition create_mappings (token inst : json) : M unit :=
  device_id <- eval (getitem inst "deviceId") ;;
  known <- eval (in_table device_id parameter_mappings) ;;
  if (known : bool) then
    mappings <- eval (table_get parameter_mappings device_id) ;;
    instance_id <- eval (getitem inst "instanceId") ;;
    '(status, resp) <-
      api_request "POST"
        [Lit "/motor-instances/"; Fmt instance_id; Lit "/mappings/batch"]
        mappings token ;;
    if status =? 200 then
      created <- eval (getitem resp "created") ;;
      name <- eval (getitem inst "name") ;;
      print [Lit "  Created "; Fmt created; Lit " mappings for "; Fmt name]
    else
      print [Lit "  Error: "; Fmt resp]
  else ret tt.

Definition create_parameter_mappings (token created_instances : json) : M unit :=
  print [Lit nl; Lit "=== 5. Create Parameter Mappings ==="] ;;
  insts <- eval (iter created_instances) ;;
  for_each insts (create_mappings token).

(** *** 6. Create Operation Modes (lines 173-219) *)

Definition operation_mode (name description : string)
    (trigger_min trigger_max min_duration priority : Z) : json :=
  JObject
    [ ("name", JString name);
      ("description", JString description);
      ("triggerTagId", JString "Motor1_Speed");
      ("triggerMinValue", JInt trigger_min);
      ("triggerMaxValue", JInt trigger_max);
      ("minDurationMs", JInt min_duration);
      ("maxDurationMs", JInt 0);
      ("priority", JInt priority) ].

Definition operation_modes : list json :=
  [ operation_mode "Normal Operation" "Motor running at normal speed" 30 60 5000 1;
    operation_mode "Low Speed" "Motor running at low speed" 10 30 3000 2;
    operation_mode "Idle/Standby" "Motor idle or standby" 0 10 2000 3 ].

(** One round of the inner loop of lines 209-219. *)
Definition create_mode (token inst mode : json) : M unit :=
  instance_id <- eval (getitem inst "instanceId") ;;
  '(status, resp) <-
    api_request "POST"
      [Lit "/motor-instances/"; Fmt instance_id; Lit "/modes"] mode token ;;
  if status =? 201 then
    mode_name <- eval (getitem mode "name") ;;
    name <- eval (getitem inst "name") ;;
    print [Lit "  Created mode '"; Fmt mode_name; Lit "' for "; Fmt name]
  else
    print [Lit "  Error: "; Fmt resp].

Definition create_modes (token inst : json) : M unit :=
  for_each operation_modes (create_mode token inst).

Definition create_operation_modes (token created_instances : json) : M unit :=
  print [Lit nl; Lit "=== 6. Create Operation Modes ==="] ;;
  insts <- eval (iter created_instances) ;;
  for_each insts (create_modes token).

(** *** 7. Start Baseline Learning (lines 221-236) *)

Definition learning_window (start_ts end_ts : Z) : json :=
  JObject [("startTs", JInt start_ts); ("endTs", JInt end_ts)].

(** One round of the loop of lines 226-236. *)
Definition start_learning (token : json) (start_ts end_ts : Z) (inst : json)
    : M unit :=
  instance_id <- eval (getitem inst "instanceId") ;;
  '(status, resp) <-
    api_request "POST"
      [Lit "/motor-instances/"; Fmt instance_id; Lit "/learn-all"]
      (learning_window start_ts end_ts) token ;;
  if status =? 200 then
    name <- eval (getitem inst "name") ;;
    print [Lit "  Started learning for "; Fmt name; Lit ": "; Fmt resp]
  else
    print [Lit "  Error: "; Fmt resp].

Definition start_baseline_learning (token created_instances : json) : M unit :=
  print [Lit nl; Lit "=== 7. Start Baseline Learning ==="] ;;
  end_ts <- time_ms ;;
  let start_ts := end_ts - 60 * 60 * 1000 in
  insts <- eval (iter created_instances) ;;
  for_each insts (start_learning token start_ts end_ts).

(** *** 8. Wait and verify (lines 238-255) *)

(** One round of the loop of lines 245-255. *)
Definition show_detail (token inst : json) : M unit :=
  instance_id <- eval (getitem inst "instanceId") ;;
  '(status, detail) <-
    api_request "GET"
      [Lit "/motor-instances/"; Fmt instance_id; Lit "/detail"] JNull token ;;
  name <- eval (getitem inst "name") ;;
  print [Lit nl; Lit "  "; Fmt name; Lit ":"] ;;
  model <- eval (dict_get detail "model" JNull) ;;
  model_name <-
    (if truthy model then
       model <- eval (dict_get detail "model" (JObject [])) ;;
       eval (dict_get model "name" (JString "N/A"))
     else ret (JString "N/A")) ;;
  print [Lit "    Model: "; Fmt model_name] ;;
  mappings <- eval (dict_get detail "mappings" (JArray [])) ;;
  n_mappings <- eval (len mappings) ;;
  print [Lit "    Mappings: "; Fmt (JInt n_mappings)] ;;
  modes <- eval (dict_get detail "modes" (JArray [])) ;;
  n_modes <- eval (len modes) ;;
  print [Lit "    Modes: "; Fmt (JInt n_modes)] ;;
  baselines <- eval (dict_get detail "baselineCount" (JInt 0)) ;;
  print [Lit "    Baselines: "; Fmt baselines].

Definition verify_results (token : json) : M json :=
  print [Lit nl; Lit "=== 8. Verifying Results ==="] ;;
  sleep 3 ;;
  '(status, instances) <- api_request "GET" [Lit "/motor-instances"] JNull token ;;
  n <- eval (len instances) ;;
  print [Lit "  Total motor instances: "; Fmt (JInt n)] ;;
  insts <- eval (iter instances) ;;
  for_each insts (show_detail token) ;;
  ret instances.

(** *** 9. Test diagnosis (lines 257-272) *)

(** One round of the loop of lines 259-269; the body it passes is the empty
    dict [{}]. *)
Definition diagnose (token inst : json) : M unit :=
  instance_id <- eval (getitem inst "instanceId") ;;
  '(status, result) <-
    api_request "POST"
      [Lit "/motor-instances/"; Fmt instance_id; Lit "/diagnose"]
      (JObject []) token ;;
  if status =? 200 then
    name <- eval (getitem inst "name") ;;
    score <- eval (dict_get result "healthScore" (JString "N/A")) ;;
    print [Lit "  "; Fmt name; Lit ": Health Score = "; Fmt score]
  else
    name <- eval (getitem inst "name") ;;
    print [Lit "  "; Fmt name; Lit ": "; Fmt result].

Definition test_diagnosis (token instances : json) : M unit :=
  print [Lit nl; Lit "=== 9. Test Diagnosis ==="] ;;
  insts <- eval (iter instances) ;;
  for_each insts (diagnose token) ;;
  print [Lit nl; Lit "=== Initialization Complete ==="] ;;
  print [Lit "Please refresh the Motor Prediction page"].

(** *** main *)

(** Everything after the login stage, given the token. *)
Definition after_login (token : json) : M unit :=
  created_models <- create_motor_models token ;;
  devices <- get_devices token ;;
  created_instances <- create_motor_instances token created_models ;;
  create_parameter_mappings token created_instances ;;
  create_operation_modes token created_instances ;;
  start_baseline_learning token created_instances ;;
  instances <- verify_results token ;;
  test_diagnosis token instances.

Definition main : M unit :=
  token <- login ;;
  after_login token.

(** A run of the script against a service, from the empty history. *)
Definition run_main (w : world) : outcome unit * state := main w initial.

(** The requests of a state, oldest first. *)
Definition requests (st : state) : list request := map fst (exchanges st).

(** The exchanges a computation adds to those of the state it starts in. *)
Definition issued {A} (m : M A) (w : world) (st : state) : list exchange :=
  skipn (List.length (exchanges st)) (exchanges (snd (m w st))).

(** * Vocabulary of the properties *)

(** ** What a call returns *)

(** The status and the body [api_request] returns for what [urlopen] did;
    nothing when the exception is not caught. *)
Definition status_of (r : http_result) : option Z :=
  match r with
  | Responded status _ => Some status
  | HTTPError code _ => Some code
  | Failed _ => None
  end.

(** The body is unwrapped from its page, or is the text of the error. *)
Definition body_of (r : http_result) : option json :=
  match r with
  | Responded _ resp_data => Some (unwrap_items resp_data)
  | HTTPError _ text => Some (JString text)
  | Failed _ => None
  end.

(** ** Requests of a run *)

(** The last literal piece of the URL of a request: the fixed end of its
    path. *)
Definition last_literal (r : request) : string :=
  match last (req_url r) (Lit "") with
  | Lit s => s
  | _ => ""
  end.

(** The requests of a run that were sent to a path ending in [suffix]. *)
Definition requests_to (suffix : string) (st : state) : list request :=
  filter (fun r => String.eqb (last_literal r) suffix) (requests st).

(** ** The session credential *)

Definition login_request : request :=
  build_request "POST" [Lit "/auth/login"] login_payload JNull.

(** The body is a mapping with a ['data'] mapping that holds a ['token']. *)
Definition holds_token (resp : json) : Prop :=
  exists d kv t,
    resp = JObject d
    /\ lookup "data" d = Some (JObject kv)
    /\ lookup "token" kv = Some t.

Fixpoint find_header (name : string) (headers : list (string * fstring))
    : option fstring :=
  match headers with
  | [] => None
  | (k, v) :: rest => if String.eqb name k then Some v else find_header name rest
  end.

(** The request has the header [Authorization: Bearer <tok>]. *)
Definition carries_bearer (tok : string) (r : request) : Prop :=
  exists h,
    find_header "Authorization" (req_headers r) = Some h
    /\ text_of h = Some (String.append "Bearer " tok).

(** ** Create or discover

    Stages 2 and 4 are two copies of one piece of code: a loop that posts
    each item to [endpoint] and keeps the entities answered with 201, and a
    fallback that gets the whole collection when the loop kept nothing.
    [create_entity] and [discover] are that piece with the endpoint, the
    identifier key and the messages as parameters; [create_model],
    [create_instance] and the ends of the two stages are instances of them
    (lemmas [create_model_is], [create_motor_models_is] and the like). *)
Definition create_entity (endpoint id_key : string) (token item : json)
    (created : list json) : M (list json) :=
  '(status, resp) <- api_request "POST" [Lit endpoint] item token ;;
  if status =? 201 then
    let created := created ++ [resp] in
    name <- eval (getitem resp "name") ;;
    id <- eval (getitem resp id_key) ;;
    print [Lit "  Created: "; Fmt name; Lit " ["; Fmt id; Lit "]"] ;;
    ret created
  else
    name <- eval (getitem item "name") ;;
    print [Lit "  Error creating "; Fmt name; Lit ": "; Fmt resp] ;;
    ret created.

Definition discover (endpoint : string) (checking : fstring)
    (found : Z -> fstring) (token : json) (created : list json) : M json :=
  if negb (truthy (JArray created)) then
    print checking ;;
    '(status, resp) <- api_request "GET" [Lit endpoint] JNull token ;;
    n <- eval (len resp) ;;
    print (found n) ;;
    ret resp
  else ret (JArray created).

Definition create_or_discover (endpoint id_key : string) (checking : fstring)
    (found : Z -> fstring) (token : json) (items : list json) : M json :=
  created <- collect items [] (create_entity endpoint id_key token) ;;
  discover endpoint checking found token created.

(** The item has a ['name']. *)
Definition named (item : json) : Prop :=
  exists n, getitem item "name" = Returned n.

(** The creation call for [item] at [endpoint]. *)
Definition creation (endpoint : string) (item token : json) : request :=
  build_request "POST" [Lit endpoint] item token.

(** The service answers every creation call at [endpoint] with an HTTP
    status: the call neither fails to connect nor returns a body that is
    not JSON. *)
Definition answers_creations (w : world) (endpoint : string) (token : json) : Prop :=
  forall history item,
    status_of (server w history (creation endpoint item token)) <> None.

(** The exchange is a creation call answered with 201. *)
Definition got_201 (x : exchange) : Prop :=
  req_method (fst x) = "POST" /\ status_of (snd x) = Some 201.

(** The exchange is the [GET] of the whole collection at [endpoint]. *)
Definition is_get (endpoint : string) (x : exchange) : Prop :=
  req_method (fst x) = "GET" /\ req_url (fst x) = [Lit API_BASE; Lit endpoint].

Definition fallback_issued (endpoint : string) (trace : list exchange) : Prop :=
  Exists (is_get endpoint) trace.

Definition none_created (trace : list exchange) : Prop :=
  Forall (fun x => ~ got_201 x) trace.

(** ** The payloads of stage 4 *)

(** The two payloads stage 4 posts, given the identifiers of their models. *)
Definition instance_payloads (model_id_1 model_id_2 : json) : list json :=
  [ motor_instance model_id_1 "Motor-001" "Main Drive Motor #1"
      "Workshop A - Line 1" "2024-01-15" "MTR-2024-001";
    motor_instance model_id_2 "SIM-PLC-001" "Auxiliary Motor #2"
      "Workshop A - Line 2" "2024-03-20" "MTR-2024-002" ].

(** The body of the request is a payload whose [modelId] is [id]. *)
Definition payload_model_id (r : request) (id : json) : Prop :=
  exists payload,
    req_body r = Some (JObject payload) /\ lookup "modelId" payload = Some id.

(** The body of the request is a payload whose [modelId] is the [modelId] of
    an element of the working set [created_models]. *)
Definition references_model (created_models : json) (r : request) : Prop :=
  exists models m id,
    created_models = JArray models
    /\ In m models
    /\ getitem m "modelId" = Returned id
    /\ payload_model_id r id.

(** ** Devices *)

Definition devices_request (token : json) : request :=
  build_request "GET" [Lit "/devices"] JNull token.

(** What stage 3 makes of a dict. *)
Definition devices_of_dict (kv : list (string * json)) : json :=
  match lookup "data" kv with
  | Some (JArray ds) => JArray ds
  | Some _ => JArray []
  | None => JObject kv
  end.

(** ** Mappings and modes *)

(** The device identifier can be looked up in the table of stage 5 and is
    not one of its keys. *)
Definition absent_from_table (device_id : json) : Prop :=
  in_table device_id parameter_mappings = Returned false.

Definition mappings_url (id : json) : fstring :=
  [Lit API_BASE; Lit "/motor-instances/"; Fmt id; Lit "/mappings/batch"].

Definition modes_url (id : json) : fstring :=
  [Lit API_BASE; Lit "/motor-instances/"; Fmt id; Lit "/modes"].

(** The request is the batch call of an instance of [insts] whose device is
    in the table. *)
Definition batch_of_known_device (insts : list json) (r : request) : Prop :=
  exists inst device_id id,
    In inst insts
    /\ getitem inst "deviceId" = Returned device_id
    /\ in_table device_id parameter_mappings = Returned true
    /\ getitem inst "instanceId" = Returned id
    /\ req_url r = mappings_url id.

(** ** The learning window *)

(** The URL of the baseline-learning call for the instance [id]. *)
Definition learn_all_url (id : json) : fstring :=
  [Lit API_BASE; Lit "/motor-instances/"; Fmt id; Lit "/learn-all"].

(** The body is a window of one hour that ends at the clock reading. *)
Definition one_hour_window (w : world) (r : request) : Prop :=
  exists start_ts end_ts,
    req_body r = Some (learning_window start_ts end_ts)
    /\ end_ts - start_ts = 3600000
    /\ end_ts = now_ms w.

(** * Example services *)

(** A service that answers the [n]-th request of a run with the [n]-th entry
    of a script, and with [default] when the script is over. *)
Definition scripted (answers : list http_result) (default : http_result)
    : list exchange -> request -> http_result :=
  fun history _ => nth (List.length history) answers default.

(** Every call is answered with the same body. *)
Definition always (resp_data : json) : world :=
  World (fun _ _ => Responded 200 resp_data) 1700000000000.

(** The login body of a session whose token is [abc]. *)
Definition token_abc : json := JObject [("data", JObject [("token", JString "abc")])].

(** A stored model, as the service returns it. *)
Definition stored_model (model_id name : string) : json :=
  JObject [("modelId", JString model_id); ("name", JString name)].

(** A stored instance, as the service returns it. *)
Definition stored_instance (instance_id device_id name : string) : json :=
  JObject
    [ ("instanceId", JString instance_id);
      ("deviceId", JString device_id);
      ("name", JString name) ].

(** An instance of a device the table does not know. *)
Definition unknown_instance : json :=
  JObject
    [ ("instanceId", JString "I-9");
      ("deviceId", JString "Unknown-999");
      ("name", JString "Spare motor") ].

(** Login succeeds, everything else is not found. *)
Definition only_login : world :=
  World (scripted [Responded 200 token_abc] (HTTPError 404 "not found")) 1700000000000.

(** The login is refused. *)
Definition locked_out : world :=
  World (fun _ _ => HTTPError 401 "bad credentials") 1700000000000.

(** Every call is answered with a page of one item. *)
Definition paged : world :=
  World (fun _ _ =>
           Responded 200 (JObject [("items", JArray [JInt 7]); ("totalCount", JInt 1)]))
        1700000000000.

(** The first creation call of a run is answered with 201, every later call
    with a conflict. *)
Definition first_created : world :=
  World (scripted [Responded 201 (stored_model "M-1" "Standard Induction Motor 15kW")]
                  (HTTPError 409 "already exists"))
        1700000000000.

(** Every call is refused as a duplicate. *)
Definition all_conflicts : world :=
  World (fun _ _ => HTTPError 409 "already exists") 1700000000000.

(** Login succeeds, both models are refused as duplicates, and the
    collections of models and of devices are empty. *)
Definition nothing_stored : world :=
  World (scripted
           [ Responded 200 token_abc;
             HTTPError 409 "already exists";
             HTTPError 409 "already exists";
             Responded 200 (JArray []);
             Responded 200 (JArray []) ]
           (HTTPError 404 "not found"))
        1700000000000.

(** A service with nothing stored yet: it accepts the login and every
    creation, and knows one device. *)
Definition fresh_server (history : list exchange) (r : request) : http_result :=
  let path := last_literal r in
  let post := String.eqb (req_method r) "POST" in
  if String.eqb path "/auth/login" then Responded 200 token_abc
  else if String.eqb path "/motor-models" then
    if post then Responded 201 (stored_model "M-1" "Standard Induction Motor 15kW")
    else Responded 200 (JArray [])
  else if String.eqb path "/devices" then
    Responded 200
      (JObject
         [ ("items", JArray [JObject [("deviceId", JString "Motor-001");
                                      ("name", JString "Line 1 drive")]]);
           ("totalCount", JInt 1) ])
  else if String.eqb path "/motor-instances" then
    if post then Responded 201 (stored_instance "I-1" "Motor-001" "Main Drive Motor #1")
    else Responded 200
           (JObject
              [ ("items", JArray [stored_instance "I-1" "Motor-001" "Main Drive Motor #1"]);
                ("totalCount", JInt 1) ])
  else if String.eqb path "/mappings/batch" then
    Responded 200 (JObject [("created", JInt 4)])
  else if String.eqb path "/modes" then Responded 201 (JObject [("modeId", JInt 1)])
  else if String.eqb path "/learn-all" then Responded 200 (JObject [("started", JBool true)])
  else if String.eqb path "/detail" then
    Responded 200
      (JObject
         [ ("model", stored_model "M-1" "Standard Induction Motor 15kW");
           ("mappings", JArray []);
           ("modes", JArray []);
           ("baselineCount", JInt 0) ])
  else if String.eqb path "/diagnose" then
    Responded 200 (JObject [("healthScore", JInt 87)])
  else HTTPError 404 "not found".

Definition fresh : world := World fresh_server 1700000000000.

(** * Vocabulary of the further properties *)

(** ** Shape of a request *)

(** The request is a JSON call to the API: it has the JSON content type, its
    URL starts with the base address, and it is a [GET] or a [POST]. *)
Definition api_call (r : request) : Prop :=
  find_header "Content-Type" (req_headers r) = Some [Lit "application/json"]
  /\ hd_error (req_url r) = Some (Lit API_BASE)
  /\ (req_method r = "GET" \/ req_method r = "POST").

(** The request has no body exactly when it is a [GET] or the diagnosis
    call. *)
Definition bodiless_iff_get_or_diagnose (r : request) : Prop :=
  req_body r = None <-> (req_method r = "GET" \/ last_literal r = "/diagnose").

(** The [Authorization] header the script sends with the token [token]:
    none for a token that is false as a condition. *)
Definition authorization_for (token : json) : option fstring :=
  if truthy token then Some [Lit "Bearer "; Fmt token] else None.


(** The login is answered with the token [token]. *)
Definition login_with (token : json) : world :=
  World (scripted [Responded 200 (JObject [("data", JObject [("token", token)])])]
                  (HTTPError 404 "not found"))
        1700000000000.


(** ** Working sets *)

(** The service answers every creation call at [endpoint] with an HTTP
    status other than 201. *)
Definition rejects_creations (w : world) (endpoint : string) (token : json) : Prop :=
  forall history item,
    exists status,
      status_of (server w history (creation endpoint item token)) = Some status
      /\ status <> 201.

(** The [GET] of the whole collection at [endpoint]. *)
Definition collection_request (endpoint : string) (token : json) : request :=
  build_request "GET" [Lit endpoint] JNull token.

(** What the fallback of a creation stage ends with, given what the [GET] of
    the collection did: the collection as [api_request] returns it (the
    items of a page, the parsed body, or the text of an HTTP error), once
    its length could be printed. *)
Definition discovered (r : http_result) : outcome json :=
  match r with
  | Responded _ resp_data =>
      match len (unwrap_items resp_data) with
      | Returned _ => Returned (unwrap_items resp_data)
      | Raised e => Raised e
      end
  | HTTPError _ text => Returned (JString text)
  | Failed e => Raised e
  end.

(** The stage made [n] creation calls, then the [GET] of the collection at
    [endpoint], and ended with what the fallback makes of its answer. *)
Definition falls_back (w : world) (endpoint : string) (token : json)
    (stage : M json) (st : state) (n : nat) : Prop :=
  exists posts r,
    issued stage w st = posts ++ [(collection_request endpoint token, r)]
    /\ List.length posts = n
    /\ Forall (fun x => req_method (fst x) = "POST") posts
    /\ r = server w (exchanges st ++ posts) (collection_request endpoint token)
    /\ fst (stage w st) = discovered r.

(** The entity a creation call was answered with, when its status is 201. *)
Definition created_by (x : exchange) : list json :=
  match status_of (snd x), body_of (snd x) with
  | Some status, Some resp =>
      if String.eqb (req_method (fst x)) "POST" && (status =? 201) then [resp] else []
  | _, _ => []
  end.

(** The entities the creation calls of a trace were answered with, in the
    order of the calls. *)
Definition created_of (trace : list exchange) : list json :=
  flat_map created_by trace.


(** The exception stage 4 ends with when its working set is not a list:
    an empty string has no first character, a dict has no key [0], and
    nothing else can be indexed by the key ["modelId"] or at all. *)
Definition not_a_list_error (created_models : json) : exn :=
  match created_models with
  | JString "" => IndexError
  | JObject _ => KeyError
  | _ => TypeError
  end.

(** The state after the banner of stage 4 alone was printed. *)
Definition after_banner_4 (st : state) : state :=
  State (exchanges st)
        (stdout st ++ [[Lit nl; Lit "=== 4. Create Motor Instances ==="]]).

(** The batch call of stage 5 for the instance [id], with the mappings
    [mappings]. *)
Definition batch_request (id mappings token : json) : request :=
  build_request "POST"
    [Lit "/motor-instances/"; Fmt id; Lit "/mappings/batch"] mappings token.


(** ** Instances *)

(** The service answers every call with an HTTP status: no call fails to
    connect or returns a body that is not JSON. *)
Definition never_fails (w : world) : Prop :=
  forall history r, status_of (server w history r) <> None.

(** The instance has the two keys the later stages read. *)
Definition identified (inst : json) : Prop :=
  exists id name,
    getitem inst "instanceId" = Returned id /\ getitem inst "name" = Returned name.

(** The [instanceId] of an identified instance. *)
Definition instance_id (inst : json) : json :=
  match getitem inst "instanceId" with
  | Returned id => id
  | Raised _ => JNull
  end.

(** The mode calls of stage 6 for an instance: one for each of the three
    modes, in the order of the list. *)
Definition mode_requests (token inst : json) : list request :=
  map (fun mode =>
         build_request "POST"
           [Lit "/motor-instances/"; Fmt (instance_id inst); Lit "/modes"]
           mode token)
      operation_modes.

(** The learning call of stage 7 for an instance. *)
Definition learn_request (w : world) (token inst : json) : request :=
  build_request "POST"
    [Lit "/motor-instances/"; Fmt (instance_id inst); Lit "/learn-all"]
    (learning_window (now_ms w - 60 * 60 * 1000) (now_ms w)) token.


(** The detail call of stage 8 and the diagnosis call of stage 9 for the
    instance [id]. *)
Definition detail_request (id token : json) : request :=
  build_request "GET" [Lit "/motor-instances/"; Fmt id; Lit "/detail"] JNull token.

Definition diagnose_request (id token : json) : request :=
  build_request "POST" [Lit "/motor-instances/"; Fmt id; Lit "/diagnose"]
    (JObject []) token.


(** ** The run as a whole *)

(** From the state [st], the computation only adds exchanges, and every
    request it adds satisfies [P]. *)
Definition emits_at {A} (w : world) (P : request -> Prop) (m : M A) (st : state)
    : Prop :=
  exists new,
    exchanges (snd (m w st)) = exchanges st ++ new /\ Forall P (map fst new).

(** The request is a creation call of stage 4. *)
Definition instance_post (r : request) : Prop :=
  req_method r = "POST" /\ req_url r = [Lit API_BASE; Lit "/motor-instances"].

(** In the run against [w], the login returned and stage 2 then returned
    [created_models] as its working set. *)
Definition stage_2_working_set (w : world) (created_models : json) : Prop :=
  exists token st1 st2,
    login w initial = (Returned token, st1)
    /\ create_motor_models token w st1 = (Returned created_models, st2).

(** Login succeeds, the first model is created and the second refused;
    there are no devices, and everything else is refused. *)
Definition one_model_created : world :=
  World (scripted
           [ Responded 200 token_abc;
             Responded 201 (stored_model "M-1" "Standard Induction Motor 15kW");
             HTTPError 409 "already exists";
             Responded 200 (JArray []) ]
           (HTTPError 409 "already exists"))
        1700000000000.


(** In the run against [w], the login returned [token] and the stages 2 to 6
    returned, stage 4 with the working set [created_instances]; [st] is the
    state stage 7 starts in. *)
Definition reaches_learning (w : world) (token created_instances : json)
    (st : state) : Prop :=
  exists st1 created_models st2 devices st3 st4 st5,
    login w initial = (Returned token, st1)
    /\ create_motor_models token w st1 = (Returned created_models, st2)
    /\ get_devices token w st2 = (Returned devices, st3)
    /\ create_motor_instances token created_models w st3
       = (Returned created_instances, st4)
    /\ create_parameter_mappings token created_instances w st4 = (Returned tt, st5)
    /\ create_operation_modes token created_instances w st5 = (Returned tt, st).

(** The working set of instances of the run against the fresh service, and
    the state of that run when stage 7 starts. *)
Definition fresh_instances : list json :=
  [ stored_instance "I-1" "Motor-001" "Main Drive Motor #1";
    stored_instance "I-1" "Motor-001" "Main Drive Motor #1" ].

Definition fresh_models : json :=
  JArray [ stored_model "M-1" "Standard Induction Motor 15kW";
           stored_model "M-1" "Standard Induction Motor 15kW" ].

Definition fresh_devices : json :=
  JArray [JObject [("deviceId", JString "Motor-001"); ("name", JString "Line 1 drive")]].

Definition fresh_after_login : state := snd (login fresh initial).

Definition fresh_after_models : state :=
  snd (create_motor_models (JString "abc") fresh fresh_after_login).

Definition fresh_after_devices : state :=
  snd (get_devices (JString "abc") fresh fresh_after_models).

Definition fresh_after_instances : state :=
  snd (create_motor_instances (JString "abc") fresh_models fresh fresh_after_devices).

Definition fresh_after_mappings : state :=
  snd (create_parameter_mappings (JString "abc") (JArray fresh_instances) fresh
         fresh_after_instances).

Definition fresh_before_learning : state :=
  snd (create_operation_modes (JString "abc") (JArray fresh_instances) fresh
         fresh_after_mappings).


(** * Reasoning about runs *)

(** ** The requests a computation can make

    [yields w P Q m]: against the service [w] and from any state, [m] only
    adds exchanges to the history, every request it adds satisfies [P], and
    a value it returns satisfies [Q].  [emits w P m] asks nothing of the
    value. *)
Definition yields {A} (w : world) (P : request -> Prop) (Q : A -> Prop)
    (m : M A) : Prop :=
  forall st,
    (exists new,
       exchanges (snd (m w st)) = exchanges st ++ new /\ Forall P (map fst new))
    /\ (forall a, fst (m w st) = Returned a -> Q a).

Definition emits {A} (w : world) (P : request -> Prop) (m : M A) : Prop :=
  yields w P (fun _ => True) m.

Section Yields.
Variable w : world.
Variable P : request -> Prop.

Lemma yields_quiet {A} (Q : A -> Prop) (m : M A) :
  (forall st, exchanges (snd (m w st)) = exchanges st) ->
  (forall st a, fst (m w st) = Returned a -> Q a) ->
  yields w P Q m.
Proof.
  intros H HQ st. split.
  - exists []. rewrite app_nil_r. split; [apply H | constructor].
  - apply HQ.
Qed.

Lemma yields_bind {A B} (Q : A -> Prop) (R : B -> Prop)
    (m : M A) (k : A -> M B) :
  yields w P Q m -> (forall a, Q a -> yields w P R (k a)) ->
  yields w P R (bind m k).
Proof.
  intros Hm Hk st. unfold bind.
  destruct (Hm st) as [[new1 [E1 F1]] Hret].
  destruct (m w st) as [[a | e] st1]; simpl in E1, Hret.
  - destruct (Hk a (Hret a eq_refl) st1) as [[new2 [E2 F2]] Hret2].
    split; [| exact Hret2].
    exists (new1 ++ new2). split.
    + rewrite E2, E1. now rewrite app_assoc.
    + rewrite map_app. now apply Forall_app.
  - split; [exists new1; now split | discriminate].
Qed.

Lemma yields_ret {A} (Q : A -> Prop) (a : A) : Q a -> yields w P Q (ret a).
Proof.
  intros H. apply yields_quiet; [reflexivity |].
  intros st b E. simpl in E. now inversion E; subst.
Qed.

Lemma yields_time : yields w P (fun t => t = now_ms w) time_ms.
Proof.
  apply yields_quiet; [reflexivity |].
  intros st t E. simpl in E. now inversion E.
Qed.

Lemma emits_ret {A} (a : A) : emits w P (ret a).
Proof. now apply yields_ret. Qed.

Lemma emits_raise {A} (e : exn) : emits w P (@raise A e).
Proof. now apply yields_quiet. Qed.

Lemma emits_eval {A} (o : outcome A) : emits w P (eval o).
Proof. destruct o; [apply emits_ret | apply emits_raise]. Qed.

Lemma emits_print (line : fstring) : emits w P (print line).
Proof. now apply yields_quiet. Qed.

Lemma emits_time : emits w P time_ms.
Proof. now apply yields_quiet. Qed.

Lemma emits_sleep (n : Z) : emits w P (sleep n).
Proof. now apply yields_quiet. Qed.

Lemma emits_bind {A B} (m : M A) (k : A -> M B) :
  emits w P m -> (forall a, emits w P (k a)) -> emits w P (bind m k).
Proof. intros Hm Hk. apply (yields_bind _ _ _ _ Hm). intros a _. apply Hk. Qed.

Lemma emits_bind_post {A B} (Q : A -> Prop) (m : M A) (k : A -> M B) :
  yields w P Q m -> (forall a, Q a -> emits w P (k a)) -> emits w P (bind m k).
Proof. apply yields_bind. Qed.

Lemma emits_bind_eval {A B} (o : outcome A) (k : A -> M B) :
  (forall a, o = Returned a -> emits w P (k a)) -> emits w P (bind (eval o) k).
Proof.
  intros H. apply (emits_bind_post (fun a => o = Returned a)); [| exact H].
  destruct o as [a | e]; simpl.
  - now apply yields_ret.
  - apply yields_quiet; [reflexivity | discriminate].
Qed.

Lemma emits_for_each {A} (xs : list A) (body : A -> M unit) :
  (forall x, In x xs -> emits w P (body x)) -> emits w P (for_each xs body).
Proof.
  induction xs as [| x rest IH]; intros H; simpl.
  - apply emits_ret.
  - apply emits_bind.
    + apply H. now left.
    + intros _. apply IH. intros y Hy. apply H. now right.
Qed.

Lemma emits_collect {A} (xs : list A) (acc : list json)
    (body : A -> list json -> M (list json)) :
  (forall x acc', In x xs -> emits w P (body x acc')) ->
  emits w P (collect xs acc body).
Proof.
  revert acc. induction xs as [| x rest IH]; intros acc H; simpl.
  - apply emits_ret.
  - apply emits_bind.
    + apply H. now left.
    + intros acc'. apply IH. intros y acc'' Hy. apply H. now right.
Qed.

Lemma emits_urlopen (req : request) : P req -> emits w P (urlopen req).
Proof.
  intros H st. split; [| auto].
  exists [(req, server w (exchanges st) req)].
  split; [reflexivity | repeat constructor; exact H].
Qed.

Lemma emits_api_request (method : string) (endpoint : fstring)
    (data token : json) :
  P (build_request method endpoint data token) ->
  emits w P (api_request method endpoint data token).
Proof.
  intros H. unfold api_request. apply emits_bind.
  - now apply emits_urlopen.
  - intros [status resp_data | code text | e];
      [apply emits_ret | apply emits_ret | apply emits_raise].
Qed.
End Yields.

Lemma skipn_length_app {A} (l new : list A) :
  skipn (List.length l) (l ++ new) = new.
Proof. induction l as [| x l IH]; simpl; auto. Qed.

Lemma emits_issued {A} (w : world) (P : request -> Prop) (m : M A) (st : state) :
  emits w P m -> Forall P (map fst (issued m w st)).
Proof.
  intros H. destruct (H st) as [[new [E F]] _].
  unfold issued. rewrite E. now rewrite skipn_length_app.
Qed.

(** One step of a proof that a piece of the script emits only requests
    satisfying a predicate: follow the structure of the code. *)
Ltac emits_step :=
  lazymatch goal with
  | |- emits _ _ (bind _ _) => apply emits_bind; [| intro]
  | |- emits _ _ (ret _) => apply emits_ret
  | |- emits _ _ (raise _) => apply emits_raise
  | |- emits _ _ (eval _) => apply emits_eval
  | |- emits _ _ (print _) => apply emits_print
  | |- emits _ _ time_ms => apply emits_time
  | |- emits _ _ (sleep _) => apply emits_sleep
  | |- emits _ _ (for_each _ _) => apply emits_for_each; intros ? ?
  | |- emits _ _ (collect _ _ _) => apply emits_collect; intros ? ? ?
  | |- emits _ _ (api_request _ _ _ _) => apply emits_api_request
  | |- emits _ _ (if ?b then _ else _) => destruct b
  | |- emits _ _ (match ?x with (_, _) => _ end) => destruct x
  end.

Ltac unfold_script :=
  progress unfold after_login, create_motor_models, create_model, get_devices,
    show_device, create_motor_instances, motor_instances, create_instance,
    create_parameter_mappings, create_mappings, create_operation_modes,
    create_modes, create_mode, start_baseline_learning, start_learning,
    verify_results, show_detail, test_diagnosis, diagnose.

Ltac emits_script := repeat (emits_step || unfold_script).

Lemma emits_mono {A} (w : world) (P P' : request -> Prop) (m : M A) :
  (forall r, P r -> P' r) -> emits w P m -> emits w P' m.
Proof.
  intros HP H st. destruct (H st) as [[new [E F]] Hret]. split; [| exact Hret].
  exists new. split; [exact E |].
  eapply Forall_impl; [| exact F]. exact HP.
Qed.

Lemma issued_after_print {A} (line : fstring) (m : M A) (w : world) (st : state) :
  issued (print line ;; m) w st
  = issued m w (State (exchanges st) (stdout st ++ [line])).
Proof. reflexivity. Qed.

Lemma quiet_when_raised {A B} (m : M A) (k : A -> M B) (w : world) (st : state)
    (e : exn) :
  m w st = (Raised e, st) -> issued (a <- m ;; k a) w st = [].
Proof.
  intros H. unfold issued, bind. rewrite H. simpl.
  rewrite <- (app_nil_r (exchanges st)) at 2. apply skipn_length_app.
Qed.

Lemma issued_after_pure {A B} (m : M A) (k : A -> M B) (w : world) (st : state)
    (a : A) :
  m w st = (Returned a, st) -> issued (a <- m ;; k a) w st = issued (k a) w st.
Proof. intros H. unfold issued, bind. now rewrite H. Qed.

Lemma issued_bind {A B} (m : M A) (k : A -> M B) (w : world) (st : state)
    (new : list exchange) :
  exchanges (snd (m w st)) = exchanges st ++ new ->
  (forall a, emits w (fun _ => True) (k a)) ->
  exists rest, issued (a <- m ;; k a) w st = new ++ rest.
Proof.
  intros E Hk. unfold issued, bind.
  destruct (m w st) as [[a | e] st1]; simpl in E.
  - destruct (Hk a st1) as [[rest [E' _]] _].
    exists rest. now rewrite E', E, <- app_assoc, skipn_length_app.
  - exists []. simpl. now rewrite E, app_nil_r, skipn_length_app.
Qed.

Lemma getitem_returned (v : json) (key : string) (x : json) :
  getitem v key = Returned x <->
  exists kv, v = JObject kv /\ lookup key kv = Some x.
Proof.
  split.
  - destruct v as [ | | | | | | kv]; simpl; try discriminate.
    destruct (lookup key kv) as [y |] eqn:E; [| discriminate].
    intros H. inversion H; subst. now exists kv.
  - intros [kv [-> H]]. simpl. now rewrite H.
Qed.

Lemma api_request_run (method : string) (endpoint : fstring) (data token : json)
    (w : world) (st : state) :
  let req := build_request method endpoint data token in
  let r := server w (exchanges st) req in
  api_request method endpoint data token w st =
  (match r with
   | Responded status resp_data => Returned (status, unwrap_items resp_data)
   | HTTPError code text => Returned (code, JString text)
   | Failed e => Raised e
   end,
   State (exchanges st ++ [(req, r)]) (stdout st)).
Proof.
  simpl. unfold api_request, bind, urlopen.
  destruct (server w (exchanges st) (build_request method endpoint data token));
    reflexivity.
Qed.

Lemma main_run (w : world) :
  run_main w =
  match login w initial with
  | (Returned token, st) => after_login token w st
  | (Raised e, st) => (Raised e, st)
  end.
Proof. reflexivity. Qed.

(** * Runs against the example services *)

Example fresh_run_completes : fst (run_main fresh) = Returned tt.
Proof. reflexivity. Qed.

Example fresh_run_requests :
  List.length (requests (snd (run_main fresh))) = 19%nat.
Proof. reflexivity. Qed.

Example fresh_run_learns_twice :
  map req_body (requests_to "/learn-all" (snd (run_main fresh)))
  = [ Some (learning_window 1699996400000 1700000000000);
      Some (learning_window 1699996400000 1700000000000) ].
Proof. reflexivity. Qed.

Example only_login_run_aborts : fst (run_main only_login) = Raised TypeError.
Proof. reflexivity. Qed.

Example locked_out_run_aborts :
  run_main locked_out
  = (Raised TypeError,
     State [(login_request, HTTPError 401 "bad credentials")]
           [[Lit "=== 1. Login ==="]]).
Proof. reflexivity. Qed.

(** * The transport adapter *)

(** C1. On a successful response, the body [api_request] returns is the value
    of the ['items'] field when the parsed JSON is a mapping that has one,
    and the parsed JSON itself otherwise. *)
Theorem api_request_normalizes (method : string) (endpoint : fstring)
    (data token : json) (w : world) (st : state) (status : Z) (resp_data : json) :
  server w (exchanges st) (build_request method endpoint data token)
    = Responded status resp_data ->
  exists body,
    fst (api_request method endpoint data token w st) = Returned (status, body)
    /\ (forall kv items,
          resp_data = JObject kv -> lookup "items" kv = Some items ->
          body = items)
    /\ (~ (exists kv items,
             resp_data = JObject kv /\ lookup "items" kv = Some items) ->
        body = resp_data).
Proof.
  intros H. rewrite api_request_run. cbv zeta. rewrite H.
  exists (unwrap_items resp_data). split; [reflexivity |]. split.
  - intros kv items -> Hitems. simpl. now rewrite Hitems.
  - intros Hno. destruct resp_data as [ | | | | | | kv]; try reflexivity.
    simpl. destruct (lookup "items" kv) as [items |] eqn:E; [| reflexivity].
    exfalso. apply Hno. now exists kv, items.
Qed.

Lemma api_request_normalizes_witness :
  exists body,
    fst (api_request "GET" [Lit "/motor-models"] JNull (JString "abc") paged initial)
      = Returned (200, body)
    /\ (forall kv items,
          JObject [("items", JArray [JInt 7]); ("totalCount", JInt 1)] = JObject kv ->
          lookup "items" kv = Some items -> body = items)
    /\ (~ (exists kv items,
             JObject [("items", JArray [JInt 7]); ("totalCount", JInt 1)] = JObject kv
             /\ lookup "items" kv = Some items) ->
        body = JObject [("items", JArray [JInt 7]); ("totalCount", JInt 1)]).
Proof.
  apply (api_request_normalizes "GET" [Lit "/motor-models"] JNull (JString "abc")
           paged initial 200).
  reflexivity.
Defined.

(** C8. A body that is the empty dict is not sent: the request built for it
    carries no body at all, so does every request the diagnosis step makes,
    and so does the diagnosis request of a run against the fresh service. *)
Theorem empty_dict_body_is_dropped (method : string) (endpoint : fstring)
    (token inst : json) (w : world) (st : state) :
  req_body (build_request method endpoint (JObject []) token) = None
  /\ Forall (fun r => req_body r = None)
            (map fst (issued (diagnose token inst) w st))
  /\ map req_body (requests_to "/diagnose" (snd (run_main fresh))) = [None].
Proof.
  split; [reflexivity |]. split; [| reflexivity].
  apply emits_issued. emits_script; reflexivity.
Qed.

(** * The session credential *)

Lemma append_empty (s : string) : String.append s "" = s.
Proof. induction s as [| c s IH]; simpl; [reflexivity | now rewrite IH]. Qed.

Lemma bearer_of_token (tok : string) (method : string) (endpoint : fstring)
    (data : json) :
  tok <> "" ->
  carries_bearer tok (build_request method endpoint data (JString tok)).
Proof.
  intros H. unfold carries_bearer, build_request. simpl.
  destruct (String.eqb_spec tok ""); [contradiction |]. simpl.
  eexists. split; [reflexivity |]. simpl.
  now rewrite append_empty.
Qed.

Lemma login_run (w : world) (st : state) :
  let r := server w (exchanges st) login_request in
  exchanges (snd (login w st)) = exchanges st ++ [(login_request, r)]
  /\ forall token,
       fst (login w st) = Returned token <->
       exists resp data shown,
         body_of r = Some resp
         /\ getitem resp "data" = Returned data
         /\ getitem data "token" = Returned token
         /\ slice_to token 50 = Returned shown.
Proof.
  cbv zeta. unfold login, bind, print. simpl.
  rewrite api_request_run. cbv zeta. fold login_request. cbn [exchanges stdout].
  destruct (server w (exchanges st) login_request) as [status body | code text | e];
    simpl.
  - destruct (getitem (unwrap_items body) "data") as [data | e1] eqn:E1; simpl.
    + destruct (getitem data "token") as [tok | e2] eqn:E2; simpl.
      * destruct (slice_to tok 50) as [shown | e3] eqn:E3; simpl.
        -- split; [reflexivity |]. intros token. split.
           ++ intros H. inversion H; subst. exists (unwrap_items body), data, shown.
              auto.
           ++ intros (resp & d & s & Hb & Hd & Ht & _).
              inversion Hb; subst. rewrite E1 in Hd. inversion Hd; subst.
              rewrite E2 in Ht. now inversion Ht.
        -- split; [reflexivity |]. intros token. split; [discriminate |].
           intros (resp & d & s & Hb & Hd & Ht & Hs).
           inversion Hb; subst. rewrite E1 in Hd. inversion Hd; subst.
           rewrite E2 in Ht. inversion Ht; subst. rewrite E3 in Hs. discriminate.
      * split; [reflexivity |]. intros token. split; [discriminate |].
        intros (resp & d & s & Hb & Hd & Ht & _).
        inversion Hb; subst. rewrite E1 in Hd. inversion Hd; subst.
        rewrite E2 in Ht. discriminate.
    + split; [reflexivity |]. intros token. split; [discriminate |].
      intros (resp & d & s & Hb & Hd & _).
      inversion Hb; subst. rewrite E1 in Hd. discriminate.
  - split; [reflexivity |]. intros token. split; [discriminate |].
    intros (resp & d & s & Hb & Hd & _). inversion Hb; subst. discriminate.
  - split; [reflexivity |]. intros token. split; [discriminate |].
    intros (resp & d & s & Hb & _). discriminate.
Qed.

Lemma after_login_bearer (w : world) (tok : string) :
  tok <> "" -> emits w (carries_bearer tok) (after_login (JString tok)).
Proof.
  intros H. emits_script; now apply bearer_of_token.
Qed.

(** C7. When the login answers [{"data":{"token":"abc"}}], every request made
    after the login request has the header [Authorization: Bearer abc]. *)
Theorem bearer_abc_on_every_later_call (w : world) (status : Z) :
  server w [] login_request = Responded status token_abc ->
  Forall (carries_bearer "abc") (tl (requests (snd (run_main w)))).
Proof.
  intros H. rewrite main_run.
  destruct (login_run w initial) as [Hex Htok].
  change (exchanges initial) with (@nil exchange) in Hex, Htok.
  rewrite H in Hex, Htok.
  assert (Hret : fst (login w initial) = Returned (JString "abc")).
  { apply Htok. exists token_abc, (JObject [("token", JString "abc")]), (JString "abc").
    repeat split; reflexivity. }
  destruct (login w initial) as [[token | e] st1]; simpl in Hex, Hret; [| discriminate].
  inversion Hret; subst token.
  destruct (after_login_bearer w "abc" ltac:(discriminate) st1) as [[new [E F]] _].
  unfold requests. rewrite E, Hex. simpl. exact F.
Qed.

Lemma bearer_abc_on_every_later_call_witness :
  Forall (carries_bearer "abc") (tl (requests (snd (run_main only_login)))).
Proof.
  apply (bearer_abc_on_every_later_call only_login 200). reflexivity.
Defined.

(** C5. When the body the login call returns is not a mapping with a ['data']
    mapping holding a ['token'], the run ends with an uncaught exception and
    the login request is the only request it has made. *)
Theorem no_token_aborts_before_any_later_call (w : world) :
  (forall resp,
     body_of (server w [] login_request) = Some resp -> ~ holds_token resp) ->
  (exists e, fst (run_main w) = Raised e)
  /\ requests (snd (run_main w)) = [login_request].
Proof.
  intros Hno. rewrite main_run.
  destruct (login_run w initial) as [Hex Htok].
  change (exchanges initial) with (@nil exchange) in Hex, Htok.
  destruct (login w initial) as [[token | e] st1]; simpl in Hex.
  - exfalso.
    destruct (proj1 (Htok token) eq_refl) as (resp & data & shown & Hb & Hd & Ht & _).
    apply (Hno resp Hb).
    apply getitem_returned in Hd. destruct Hd as [d [-> Hd]].
    apply getitem_returned in Ht. destruct Ht as [kv [-> Ht]].
    now exists d, kv, token.
  - split; [now exists e |]. unfold requests. simpl. now rewrite Hex.
Qed.

Lemma no_token_aborts_before_any_later_call_witness :
  (exists e, fst (run_main locked_out) = Raised e)
  /\ requests (snd (run_main locked_out)) = [login_request].
Proof.
  apply (no_token_aborts_before_any_later_call locked_out).
  intros resp H [d [kv [t [E _]]]]. simpl in H. inversion H; subst. discriminate.
Defined.

(** * The baseline-learning window *)

Lemma one_hour_window_built (w : world) (method : string) (endpoint : fstring)
    (token : json) :
  one_hour_window w
    (build_request method endpoint
       (learning_window (now_ms w - 60 * 60 * 1000) (now_ms w)) token).
Proof.
  exists (now_ms w - 60 * 60 * 1000), (now_ms w). repeat split. lia.
Qed.

Lemma baseline_learning_window (w : world) (token created_instances : json) :
  emits w (one_hour_window w) (start_baseline_learning token created_instances).
Proof.
  unfold start_baseline_learning. apply emits_bind; [apply emits_print | intros _].
  apply (emits_bind_post w _ (fun t => t = now_ms w)); [apply yields_time |].
  intros end_ts ->.
  emits_script. apply one_hour_window_built.
Qed.

Ltac not_learn_all :=
  let H := fresh in
  intros [? H]; unfold learn_all_url, build_request in H; simpl in H;
  discriminate H || (exfalso; congruence).

(** Every baseline-learning request of a run carries a window
    [{startTs, endTs}] with [endTs - startTs = 3600000], where [endTs] is the
    clock reading in milliseconds. *)
Lemma learn_all_requests_have_one_hour_window (w : world) :
  Forall (fun r => (exists id, req_url r = learn_all_url id) -> one_hour_window w r)
         (requests (snd (run_main w))).
Proof.
  assert (H : emits w
                (fun r => (exists id, req_url r = learn_all_url id) ->
                          one_hour_window w r) main).
  { unfold main. apply emits_bind.
    - unfold login. emits_script. not_learn_all.
    - intros token. unfold after_login.
      repeat emits_step;
        try (apply (emits_mono w (one_hour_window w));
             [auto | apply baseline_learning_window]);
        emits_script; not_learn_all. }
  destruct (H initial) as [[new [E F]] _].
  unfold requests, run_main. now rewrite E.
Qed.

(** * Create or discover *)

Lemma create_model_is (token : json) :
  create_model token = create_entity "/motor-models" "modelId" token.
Proof. reflexivity. Qed.

Lemma create_instance_is (token : json) :
  create_instance token = create_entity "/motor-instances" "instanceId" token.
Proof. reflexivity. Qed.

Lemma create_motor_models_is (token : json) :
  create_motor_models token =
  (print [Lit nl; Lit "=== 2. Create Motor Models ==="] ;;
   create_or_discover "/motor-models" "modelId"
     [Lit "No models created, checking existing..."]
     (fun n => [Lit "  Found "; Fmt (JInt n); Lit " existing models"])
     token motor_models).
Proof. reflexivity. Qed.

Lemma create_motor_instances_is (token created_models : json) :
  create_motor_instances token created_models =
  (print [Lit nl; Lit "=== 4. Create Motor Instances ==="] ;;
   motor_instances <- motor_instances created_models ;;
   create_or_discover "/motor-instances" "instanceId"
     [Lit "No instances created, checking existing..."]
     (fun n => [Lit "  Found "; Fmt (JInt n); Lit " existing instances"])
     token motor_instances).
Proof. reflexivity. Qed.

Section CreateOrDiscover.
Variables (endpoint id_key : string) (token : json) (w : world).
Variables (checking : fstring) (found : Z -> fstring).
Hypothesis answered : answers_creations w endpoint token.

(** One round of the loop: one creation call; the round keeps the answer
    exactly when its status is 201, and it can only raise after a 201. *)
Lemma create_entity_run (item : json) (acc : list json) (st : state) :
  named item ->
  let r := server w (exchanges st) (creation endpoint item token) in
  let x := (creation endpoint item token, r) in
  exchanges (snd (create_entity endpoint id_key token item acc w st))
    = exchanges st ++ [x]
  /\ match fst (create_entity endpoint id_key token item acc w st) with
     | Returned acc' =>
         (got_201 x /\ exists resp, body_of r = Some resp /\ acc' = acc ++ [resp])
         \/ (~ got_201 x /\ acc' = acc)
     | Raised _ => got_201 x
     end.
Proof.
  intros [n Hn]. cbv zeta. unfold create_entity, bind.
  rewrite api_request_run. cbv zeta. fold (creation endpoint item token).
  pose proof (answered (exchanges st) item) as Hans.
  unfold got_201.
  destruct (server w (exchanges st) (creation endpoint item token))
    as [status body | code text | e]; simpl in *; [| | congruence].
  - destruct (Z.eqb_spec status 201) as [-> | Hne].
    + unfold eval, print.
      destruct (getitem (unwrap_items body) "name"); simpl;
        [destruct (getitem (unwrap_items body) id_key); simpl |]; eauto 8.
    + rewrite Hn. simpl. split; [reflexivity |]. right. split; [| reflexivity].
      intros [_ H]. congruence.
  - destruct (Z.eqb_spec code 201) as [-> | Hne].
    + unfold eval, print. simpl. auto.
    + rewrite Hn. simpl. split; [reflexivity |]. right. split; [| reflexivity].
      intros [_ H]. congruence.
Qed.

(** The loop: its exchanges are creation calls only, it keeps something
    exactly when a call was answered with 201, and it can only raise
    after a 201. *)
Lemma collect_run (items : list json) :
  Forall named items ->
  forall (acc : list json) (st : state),
  exists new,
    exchanges (snd (collect items acc (create_entity endpoint id_key token) w st))
      = exchanges st ++ new
    /\ Forall (fun x => req_method (fst x) = "POST") new
    /\ match fst (collect items acc (create_entity endpoint id_key token) w st) with
       | Returned created =>
           exists added, created = acc ++ added /\ (added = [] <-> none_created new)
       | Raised _ => ~ none_created new
       end.
Proof.
  induction 1 as [| item items Hitem _ IH]; intros acc st; simpl.
  - exists []. rewrite app_nil_r. repeat split; [constructor |].
    exists []. rewrite app_nil_r. repeat split; constructor.
  - unfold bind.
    destruct (create_entity_run item acc st Hitem) as [E Hfst].
    cbv zeta in E, Hfst.
    set (x := (creation endpoint item token,
               server w (exchanges st) (creation endpoint item token))) in *.
    assert (Hpost : req_method (fst x) = "POST") by reflexivity.
    destruct (create_entity endpoint id_key token item acc w st) as [[acc' | e] st1];
      simpl in E, Hfst.
    + destruct (IH acc' st1) as [new [E' [Hposts Hout]]].
      exists (x :: new). rewrite E', E, <- app_assoc. simpl.
      split; [reflexivity |]. split; [now constructor |].
      destruct (fst (collect items acc' (create_entity endpoint id_key token) w st1))
        as [created | e].
      * destruct Hout as [added [-> Hiff]].
        destruct Hfst as [[H201 [resp [_ ->]]] | [Hnot ->]].
        -- exists (resp :: added). rewrite <- app_assoc. split; [reflexivity |].
           split; [discriminate |]. intros Hnone. inversion Hnone; subst. tauto.
        -- exists added. split; [reflexivity |]. rewrite Hiff. split.
           ++ intros Hnone. now constructor.
           ++ intros Hnone. now inversion Hnone.
      * intros Hnone. inversion Hnone; subst. tauto.
    + exists [x]. split; [exact E |]. split; [now repeat constructor |].
      intros Hnone. inversion Hnone; subst. tauto.
Qed.

Lemma discover_run (created : list json) (st : state) :
  let get := build_request "GET" [Lit endpoint] JNull token in
  exchanges (snd (discover endpoint checking found token created w st))
  = exchanges st
    ++ match created with
       | [] => [(get, server w (exchanges st) get)]
       | _ => []
       end.
Proof.
  cbv zeta. unfold discover. destruct created as [| c rest]; simpl.
  - unfold bind, print. rewrite api_request_run. cbv zeta. simpl.
    destruct (server w (exchanges st) (build_request "GET" [Lit endpoint] JNull token))
      as [status body | code text | e]; simpl; unfold eval;
      try destruct (len (unwrap_items body)); reflexivity.
  - now rewrite app_nil_r.
Qed.

(** The fallback [GET] is made exactly when no creation call was answered
    with 201. *)
Lemma create_or_discover_fallback (items : list json) (st : state) :
  Forall named items ->
  let stage := create_or_discover endpoint id_key checking found token items in
  fallback_issued endpoint (issued stage w st)
  <-> none_created (issued stage w st).
Proof.
  intros Hnamed. cbv zeta. unfold create_or_discover.
  destruct (collect_run items Hnamed [] st) as [new [E [Hposts Hout]]].
  assert (Hno_get : ~ fallback_issued endpoint new).
  { intros H. apply Exists_exists in H. destruct H as [x [Hin [Hget _]]].
    rewrite Forall_forall in Hposts. specialize (Hposts x Hin). congruence. }
  unfold issued, bind.
  destruct (collect items [] (create_entity endpoint id_key token) w st)
    as [[created | e] st1]; simpl in E, Hout; cbn [snd].
  - destruct Hout as [added [Hcreated Hiff]]. simpl in Hcreated. subst added.
    pose proof (discover_run created st1) as Ed. cbv zeta in Ed.
    rewrite E in Ed at 1. rewrite <- app_assoc in Ed.
    rewrite Ed, skipn_length_app.
    destruct created as [| c rest].
    + assert (Hnone : none_created new) by now apply Hiff.
      split; intros _.
      * apply Forall_app. split; [exact Hnone |].
        repeat constructor. intros [Hm _]. simpl in Hm. discriminate.
      * apply Exists_app. right. constructor. split; reflexivity.
    + rewrite app_nil_r. split; [tauto |].
      intros Hnone. apply Hiff in Hnone. discriminate.
  - rewrite E, skipn_length_app. tauto.
Qed.
End CreateOrDiscover.

(** A creation call answered with 201 and an entity that has the two keys
    the stage prints: the entity joins the working set. *)
Lemma create_entity_created (endpoint id_key : string) (token item : json)
    (acc : list json) (w : world) (st : state) (resp name id : json) :
  let r := server w (exchanges st) (creation endpoint item token) in
  status_of r = Some 201 ->
  body_of r = Some resp ->
  getitem resp "name" = Returned name ->
  getitem resp id_key = Returned id ->
  exists out,
    create_entity endpoint id_key token item acc w st
    = (Returned (acc ++ [resp]),
       State (exchanges st ++ [(creation endpoint item token, r)]) out).
Proof.
  cbv zeta. intros Hs Hb Hname Hid. unfold create_entity, bind.
  rewrite api_request_run. cbv zeta. fold (creation endpoint item token).
  destruct (server w (exchanges st) (creation endpoint item token))
    as [status body | code text | e]; simpl in Hs, Hb; [| | discriminate];
    inversion Hs; subst; inversion Hb; subst; simpl.
  - rewrite Hname. simpl. rewrite Hid. simpl. eexists. reflexivity.
  - simpl in Hname. discriminate.
Qed.

(** A creation call answered with another status: the working set is as it
    was. *)
Lemma create_entity_rejected (endpoint id_key : string) (token item : json)
    (acc : list json) (w : world) (st : state) (status : Z) (name : json) :
  let r := server w (exchanges st) (creation endpoint item token) in
  status_of r = Some status ->
  status <> 201 ->
  getitem item "name" = Returned name ->
  exists out,
    create_entity endpoint id_key token item acc w st
    = (Returned acc,
       State (exchanges st ++ [(creation endpoint item token, r)]) out).
Proof.
  cbv zeta. intros Hs Hne Hname. unfold create_entity, bind.
  rewrite api_request_run. cbv zeta. fold (creation endpoint item token).
  destruct (server w (exchanges st) (creation endpoint item token))
    as [s body | code text | e]; simpl in Hs; [| | discriminate];
    inversion Hs; subst; simpl;
    destruct (Z.eqb_spec status 201); try contradiction;
    rewrite Hname; simpl; eexists; reflexivity.
Qed.

Lemma scripted_answers (answers : list http_result) (default : http_result)
    (now : Z) (endpoint : string) (token : json) :
  Forall (fun r => status_of r <> None) (default :: answers) ->
  answers_creations (World (scripted answers default) now) endpoint token.
Proof.
  intros H history item. simpl. unfold scripted.
  inversion H as [| d l Hd Hl]; subst.
  destruct (nth_in_or_default (List.length history) answers default) as [Hin | ->].
  - rewrite Forall_forall in Hl. now apply Hl.
  - exact Hd.
Qed.

(** * The payloads of stage 4 *)

(** Building the payloads touches neither the service nor the console. *)
Lemma motor_instances_pure (created_models : json) :
  exists o, forall w st, motor_instances created_models w st = (o, st).
Proof.
  unfold motor_instances, bind, eval.
  destruct (getindex created_models 0) as [first |]; simpl;
    [| eexists; reflexivity].
  destruct (getitem first "modelId"); simpl; [| eexists; reflexivity].
  destruct (len created_models) as [n |]; simpl; [| eexists; reflexivity].
  destruct (n >? 1); simpl.
  - destruct (getindex created_models 1) as [second |]; simpl;
      [| eexists; reflexivity].
    destruct (getitem second "modelId"); simpl; eexists; reflexivity.
  - destruct (getitem first "modelId"); simpl; eexists; reflexivity.
Qed.

(** When the payloads are built, the working set is a list, and each payload
    has the [modelId] of one of its elements: the first payload that of the
    first element, the second payload that of the second element when there
    is one and of the first otherwise. *)
Lemma motor_instances_returned (created_models : json) (w : world) (st : state)
    (insts : list json) :
  fst (motor_instances created_models w st) = Returned insts ->
  exists models first pick id1 id2,
    created_models = JArray models
    /\ nth_error models 0 = Some first
    /\ In pick models
    /\ (forall m, models = [m] -> pick = m)
    /\ getitem first "modelId" = Returned id1
    /\ getitem pick "modelId" = Returned id2
    /\ insts = instance_payloads id1 id2.
Proof.
  unfold motor_instances, bind, eval.
  destruct created_models as [ | | | | s | models | kv]; try (simpl; discriminate).
  - destruct s as [| c s]; simpl; discriminate.
  - destruct models as [| first [| second rest]].
    + simpl. discriminate.
    + simpl.
      destruct (getitem first "modelId") as [id1 |] eqn:E1; simpl; [| discriminate].
      intros H. inversion H; subst.
      exists [first], first, first, id1, id1. repeat split; auto.
      * now left.
      * intros m Hm. now inversion Hm.
    + assert (Hlen : exists n, len (JArray (first :: second :: rest)) = Returned n
                               /\ (n >? 1) = true).
      { eexists. split; [reflexivity |]. apply Z.gtb_lt.
        change (List.length (first :: second :: rest))
          with (S (S (List.length rest))). lia. }
      destruct Hlen as [n [-> Hgt]]. simpl. rewrite Hgt.
      destruct (getitem first "modelId") as [id1 |] eqn:E1; simpl; [| discriminate].
      destruct (getitem second "modelId") as [id2 |] eqn:E2; simpl; [| discriminate].
      intros H. inversion H; subst.
      exists (first :: second :: rest), first, second, id1, id2.
      repeat split; auto.
      * right. now left.
      * intros m Hm. inversion Hm.
Qed.

Lemma instance_payloads_named (id1 id2 : json) :
  Forall named (instance_payloads id1 id2).
Proof. repeat constructor; eexists; reflexivity. Qed.

Lemma motor_models_named : Forall named motor_models.
Proof. repeat constructor; eexists; reflexivity. Qed.

(** * The fallback of the creation stages *)

(** C2. In each creation stage the fallback [GET] of the whole collection is
    made exactly when no creation call was answered with 201; and when the
    first model creation is answered with 201 and the second with 409, the
    working set is the first model alone and no fallback [GET] is made.
    The service is taken to answer every creation call with an HTTP status,
    the payloads of stage 4 to have been built, and the model answered with
    201 to carry the [name] and [modelId] that the stage prints. *)
Theorem fallback_iff_nothing_created (w : world) (token : json) (st st' : state)
    (created_models : json) (insts : list json) :
  answers_creations w "/motor-models" token ->
  answers_creations w "/motor-instances" token ->
  fst (motor_instances created_models w st') = Returned insts ->
  (fallback_issued "/motor-models" (issued (create_motor_models token) w st)
   <-> none_created (issued (create_motor_models token) w st))
  /\ (fallback_issued "/motor-instances"
        (issued (create_motor_instances token created_models) w st')
      <-> none_created (issued (create_motor_instances token created_models) w st'))
  /\ (forall first name model_id,
        let post_1 := creation "/motor-models" (nth 0 motor_models JNull) token in
        let post_2 := creation "/motor-models" (nth 1 motor_models JNull) token in
        let answer_1 := server w (exchanges st) post_1 in
        let answer_2 := server w (exchanges st ++ [(post_1, answer_1)]) post_2 in
        status_of answer_1 = Some 201 ->
        body_of answer_1 = Some first ->
        getitem first "name" = Returned name ->
        getitem first "modelId" = Returned model_id ->
        status_of answer_2 = Some 409 ->
        fst (create_motor_models token w st) = Returned (JArray [first])
        /\ ~ fallback_issued "/motor-models" (issued (create_motor_models token) w st)).
Proof.
  intros Hmodels Hinsts Hbuilt.
  assert (Hstage2 :
            fallback_issued "/motor-models" (issued (create_motor_models token) w st)
            <-> none_created (issued (create_motor_models token) w st)).
  { rewrite create_motor_models_is, issued_after_print.
    apply create_or_discover_fallback; [exact Hmodels | exact motor_models_named]. }
  split; [exact Hstage2 |]. split.
  - rewrite create_motor_instances_is, issued_after_print.
    destruct (motor_instances_returned _ _ _ _ Hbuilt)
      as (models & first & pick & id1 & id2 & _ & _ & _ & _ & _ & _ & ->).
    destruct (motor_instances_pure created_models) as [o Hpure].
    rewrite Hpure in Hbuilt. simpl in Hbuilt. subst o.
    unfold issued, bind. rewrite Hpure.
    apply (create_or_discover_fallback "/motor-instances" "instanceId" token w
             _ _ Hinsts (instance_payloads id1 id2)
             (State (exchanges st') (stdout st' ++ [_]))).
    apply instance_payloads_named.
  - intros first name model_id. cbv zeta. intros H201 Hbody Hname Hid H409.
    assert (Hnamed : getitem (nth 1 motor_models JNull) "name"
                     = Returned (JString "VFD Motor 7.5kW")) by reflexivity.
    assert (Hrun : exists x1 x2 out,
              create_motor_models token w st
              = (Returned (JArray [first]),
                 State ((exchanges st ++ [x1]) ++ [x2]) out)
              /\ req_method (fst x1) = "POST" /\ req_method (fst x2) = "POST").
    { unfold create_motor_models.
      change (collect motor_models [] (create_model token))
        with (acc <- create_entity "/motor-models" "modelId" token
                       (nth 0 motor_models JNull) [] ;;
              acc <- create_entity "/motor-models" "modelId" token
                       (nth 1 motor_models JNull) acc ;;
              ret acc).
      unfold bind, print.
      match goal with
      | |- context [create_entity _ _ _ ?item [] w ?s] =>
          destruct (create_entity_created "/motor-models" "modelId" token item []
                      w s first name model_id H201 Hbody Hname Hid) as [out1 E1]
      end.
      match type of E1 with
      | _ = (_, ?s1) =>
          destruct (create_entity_rejected "/motor-models" "modelId" token
                      (nth 1 motor_models JNull) [first] w s1 409
                      (JString "VFD Motor 7.5kW") H409 ltac:(lia) Hnamed)
            as [out2 E2]
      end.
      do 3 eexists. split; [| split].
      - rewrite E1. cbn [app]. rewrite E2. reflexivity.
      - reflexivity.
      - reflexivity. }
    destruct Hrun as (x1 & x2 & out & Hrun & Hx1 & Hx2).
    split; [now rewrite Hrun |].
    unfold issued. rewrite Hrun. cbn [snd exchanges].
    rewrite <- app_assoc, skipn_length_app.
    intros H. inversion H as [x l [Hm _] | x l H']; subst; [congruence |].
    inversion H' as [x l [Hm _] | x l H'']; subst; [congruence | inversion H''].
Qed.

Lemma fallback_iff_nothing_created_witness :
  fst (create_motor_models (JString "abc") first_created initial)
    = Returned (JArray [stored_model "M-1" "Standard Induction Motor 15kW"])
  /\ ~ fallback_issued "/motor-models"
         (issued (create_motor_models (JString "abc")) first_created initial).
Proof.
  destruct (fallback_iff_nothing_created first_created (JString "abc")
              initial initial
              (JArray [stored_model "M-1" "Standard Induction Motor 15kW"])
              (instance_payloads (JString "M-1") (JString "M-1")))
    as [_ [_ H]].
  - apply scripted_answers. repeat constructor; discriminate.
  - apply scripted_answers. repeat constructor; discriminate.
  - reflexivity.
  - apply (H _ (JString "Standard Induction Motor 15kW") (JString "M-1"));
      reflexivity.
Defined.

(** * The model of an instance *)

Lemma create_or_discover_references (w : world) (token created_models : json)
    (models : list json) (m1 m2 id1 id2 : json)
    (checking : fstring) (found : Z -> fstring) :
  created_models = JArray models ->
  In m1 models -> In m2 models ->
  getitem m1 "modelId" = Returned id1 ->
  getitem m2 "modelId" = Returned id2 ->
  emits w (fun r => req_method r = "POST" -> references_model created_models r)
    (create_or_discover "/motor-instances" "instanceId" checking found token
       (instance_payloads id1 id2)).
Proof.
  intros Hcm Hin1 Hin2 Hid1 Hid2.
  unfold create_or_discover, discover, create_entity. emits_script.
  - intros _.
    match goal with
    | H : In _ (instance_payloads _ _) |- _ =>
        destruct H as [<- | [<- | []]]
    end.
    + exists models, m1, id1. repeat split; auto. eexists. split; reflexivity.
    + exists models, m2, id2. repeat split; auto. eexists. split; reflexivity.
  - discriminate.
Qed.

(** Stage 4 on its own: every payload it posts has the [modelId] of an
    element of the working set it is given; when that working set is a
    single model, both payloads are built with its [modelId]. *)
Lemma stage_4_payloads_reference_models (w : world) (token created_models : json)
    (st : state) (m id : json) :
  Forall (fun r => req_method r = "POST" -> references_model created_models r)
         (map fst (issued (create_motor_instances token created_models) w st))
  /\ (created_models = JArray [m] ->
      getitem m "modelId" = Returned id ->
      fst (motor_instances created_models w st) = Returned (instance_payloads id id)
      /\ Forall (fun r => req_method r = "POST" -> payload_model_id r id)
                (map fst (issued (create_motor_instances token created_models) w st))).
Proof.
  assert (Hall :
            Forall (fun r => req_method r = "POST" -> references_model created_models r)
              (map fst (issued (create_motor_instances token created_models) w st))).
  { rewrite create_motor_instances_is, issued_after_print.
    destruct (motor_instances_pure created_models) as [o Hpure].
    destruct o as [insts | e].
    - rewrite (issued_after_pure _ _ _ _ _ (Hpure _ _)).
      assert (Hret : fst (motor_instances created_models w st) = Returned insts)
        by now rewrite Hpure.
      destruct (motor_instances_returned _ _ _ _ Hret)
        as (models & first & pick & id1 & id2 & Hcm & Hfirst & Hpick & _ & H1 & H2 & ->).
      apply emits_issued.
      apply (create_or_discover_references w token created_models models first pick);
        auto.
      now apply nth_error_In with (n := 0%nat).
    - rewrite (quiet_when_raised _ _ _ _ _ (Hpure _ _)). constructor. }
  split; [exact Hall |].
  intros -> Hid. split.
  - unfold motor_instances, bind. simpl. rewrite Hid. reflexivity.
  - eapply Forall_impl; [| exact Hall].
    intros r Hr Hpost.
    destruct (Hr Hpost) as (models & m' & id' & Hcm & Hin & Hid' & Hpayload).
    inversion Hcm; subst models. destruct Hin as [<- | []].
    rewrite Hid in Hid'. now inversion Hid'; subst.
Qed.

Lemma emits_at_bind {A B} (m : M A) (k : A -> M B) (w : world)
    (P : request -> Prop) (st : state) :
  emits_at w P m st ->
  (forall a st', m w st = (Returned a, st') -> emits w P (k a)) ->
  emits_at w P (a <- m ;; k a) st.
Proof.
  intros [new1 [E1 F1]] Hk. unfold emits_at, bind.
  destruct (m w st) as [[a | e] st1]; simpl in E1.
  - destruct (Hk a st1 eq_refl st1) as [[new2 [E2 F2]] _].
    exists (new1 ++ new2). rewrite E2, E1, app_assoc. split; [reflexivity |].
    rewrite map_app. now apply Forall_app.
  - exists new1. now split.
Qed.

(** Stage 4 for every state: the payloads it posts reference the working
    set it is given. *)
Lemma create_motor_instances_references (w : world) (token created_models : json) :
  emits w (fun r => req_method r = "POST" -> references_model created_models r)
    (create_motor_instances token created_models).
Proof.
  intros st. split; [| auto].
  exists (issued (create_motor_instances token created_models) w st). split.
  - assert (H : emits w (fun _ => True) (create_motor_instances token created_models))
      by (emits_script; exact I).
    destruct (H st) as [[new [E _]] _]. unfold issued.
    now rewrite E, skipn_length_app.
  - apply (stage_4_payloads_reference_models w token created_models st JNull JNull).
Qed.

Ltac not_instance_post :=
  let H := fresh in
  intros [? H]; unfold build_request in *; simpl in *;
  discriminate || (exfalso; congruence).

(** In a run, only stage 4 posts to [/motor-instances]. *)
Lemma create_motor_models_posts_no_instance (w : world) (token : json) :
  emits w (fun r => ~ instance_post r) (create_motor_models token).
Proof. emits_script; not_instance_post. Qed.

(** C3. In a run, every payload posted to [/motor-instances] has the
    [modelId] of an element of the working set that stage 2 returned in
    that run; when that working set is a single model, every payload posted
    has the [modelId] of that model, and both payloads are built with it. *)
Theorem instance_model_from_working_set (w : world) :
  Forall (fun r => instance_post r ->
                   exists created_models,
                     stage_2_working_set w created_models
                     /\ references_model created_models r)
         (requests (snd (run_main w)))
  /\ (forall m id,
        stage_2_working_set w (JArray [m]) ->
        getitem m "modelId" = Returned id ->
        Forall (fun r => instance_post r -> payload_model_id r id)
               (requests (snd (run_main w)))
        /\ forall st,
             fst (motor_instances (JArray [m]) w st)
             = Returned (instance_payloads id id)).
Proof.
  assert (Hall :
            Forall (fun r => instance_post r ->
                             exists created_models,
                               stage_2_working_set w created_models
                               /\ references_model created_models r)
                   (requests (snd (run_main w)))).
  { rewrite main_run.
    destruct (login_run w initial) as [Hex _].
    change (exchanges initial) with (@nil exchange) in Hex. simpl in Hex.
    destruct (login w initial) as [[token | e] st1] eqn:Hlogin; simpl in Hex.
    - assert (Hafter : emits_at w
                (fun r => instance_post r ->
                          exists created_models,
                            stage_2_working_set w created_models
                            /\ references_model created_models r)
                (after_login token) st1).
      { unfold after_login. apply emits_at_bind.
        - destruct (create_motor_models_posts_no_instance w token st1)
            as [[new [E F]] _].
          exists new. split; [exact E |].
          eapply Forall_impl; [| exact F]. intros r Hr Hpost. contradiction.
        - intros created_models st2 Hstage2.
          repeat emits_step;
            try (apply (emits_mono w
                          (fun r => req_method r = "POST" ->
                                    references_model created_models r));
                 [intros r Hr [Hpost _]; exists created_models; split;
                  [now exists token, st1, st2 | now apply Hr]
                 | apply create_motor_instances_references]);
            emits_script; not_instance_post. }
      destruct Hafter as [new [E F]].
      unfold requests. rewrite E, Hex, map_app. apply Forall_app. split; [| exact F].
      repeat constructor. not_instance_post.
    - unfold requests. simpl. rewrite Hex. repeat constructor. not_instance_post. }
  split; [exact Hall |].
  intros m id (token & st1 & st2 & Hlogin & Hstage2) Hid. split.
  - eapply Forall_impl; [| exact Hall].
    intros r Hr Hpost.
    destruct (Hr Hpost)
      as (cm & (token' & st1' & st2' & Hlogin' & Hstage2')
          & (models & m' & id' & Hcm & Hin & Hid' & Hpayload)).
    rewrite Hlogin in Hlogin'. inversion Hlogin'; subst token' st1'.
    assert (Hmodels : JArray [m] = JArray models) by congruence.
    inversion Hmodels; subst models. destruct Hin as [<- | []].
    rewrite Hid in Hid'. now inversion Hid'; subst.
  - intros st. unfold motor_instances, bind. simpl. rewrite Hid. reflexivity.
Qed.

Lemma instance_model_from_working_set_witness :
  Forall (fun r => instance_post r -> payload_model_id r (JString "M-1"))
         (requests (snd (run_main one_model_created)))
  /\ forall st,
       fst (motor_instances (JArray [stored_model "M-1" "Standard Induction Motor 15kW"])
              one_model_created st)
       = Returned (instance_payloads (JString "M-1") (JString "M-1")).
Proof.
  destruct (instance_model_from_working_set one_model_created) as [_ H].
  apply (H (stored_model "M-1" "Standard Induction Motor 15kW") (JString "M-1")).
  - exists (JString "abc"). do 2 eexists. split; reflexivity.
  - reflexivity.
Defined.

Example one_model_created_posts_two_instances :
  map req_body (requests_to "/motor-instances" (snd (run_main one_model_created)))
  = [ Some (motor_instance (JString "M-1") "Motor-001" "Main Drive Motor #1"
              "Workshop A - Line 1" "2024-01-15" "MTR-2024-001");
      Some (motor_instance (JString "M-1") "SIM-PLC-001" "Auxiliary Motor #2"
              "Workshop A - Line 2" "2024-03-20" "MTR-2024-002");
      None ].
Proof. reflexivity. Qed.

(** * Mappings and modes *)

Lemma create_mappings_requests (w : world) (token inst : json) (insts : list json) :
  In inst insts ->
  emits w (batch_of_known_device insts) (create_mappings token inst).
Proof.
  intros Hin. unfold create_mappings.
  apply emits_bind_eval. intros device_id Hd.
  apply emits_bind_eval. intros known Ht.
  destruct known; [| apply emits_ret].
  apply emits_bind_eval. intros mappings _.
  apply emits_bind_eval. intros id Hi.
  apply emits_bind; [| intro; emits_script].
  apply emits_api_request. now exists inst, device_id, id.
Qed.

(** One round of the inner loop of stage 6 makes one call, whatever the
    device of the instance. *)
Lemma create_mode_run (w : world) (token inst mode id : json) (st : state) :
  getitem inst "instanceId" = Returned id ->
  let req := build_request "POST" [Lit "/motor-instances/"; Fmt id; Lit "/modes"]
               mode token in
  exchanges (snd (create_mode token inst mode w st))
  = exchanges st ++ [(req, server w (exchanges st) req)].
Proof.
  intros Hid. cbv zeta. unfold create_mode, bind. rewrite Hid. cbn [eval ret].
  rewrite api_request_run. cbv zeta.
  destruct (server w (exchanges st) _) as [status body | code text | e];
    [destruct (status =? 201) | destruct (code =? 201) |]; unfold eval, print;
    try destruct (getitem mode "name"); try destruct (getitem inst "name");
    reflexivity.
Qed.

(** C4, as the script has it.  The batch call of stage 5 is made only for
    instances whose [deviceId] is a key of the table, and an instance whose
    [deviceId] is absent from it is passed over without a request and
    without an error; stage 6 does not look at the table, and posts the
    modes of such an instance as of any other. *)
Theorem unknown_device_gets_no_mappings (w : world) (token created_instances : json)
    (insts : list json) (inst device_id id : json) (st : state) :
  iter created_instances = Returned insts ->
  In inst insts ->
  getitem inst "deviceId" = Returned device_id ->
  absent_from_table device_id ->
  getitem inst "instanceId" = Returned id ->
  Forall (batch_of_known_device insts)
         (map fst (issued (create_parameter_mappings token created_instances) w st))
  /\ create_mappings token inst w st = (Returned tt, st)
  /\ exists answer rest,
       issued (create_modes token inst) w st
       = (build_request "POST"
            [Lit "/motor-instances/"; Fmt id; Lit "/modes"]
            (nth 0 operation_modes JNull) token, answer) :: rest.
Proof.
  intros Hiter Hin Hdev Habsent Hid. split; [| split].
  - apply emits_issued. unfold create_parameter_mappings.
    apply emits_bind; [apply emits_print | intros _].
    apply emits_bind_eval. intros insts' Hinsts'.
    rewrite Hiter in Hinsts'. inversion Hinsts'; subst insts'.
    apply emits_for_each. intros x Hx. now apply create_mappings_requests.
  - unfold create_mappings, bind. rewrite Hdev. simpl.
    unfold absent_from_table in Habsent. rewrite Habsent. reflexivity.
  - change (create_modes token inst)
      with (create_mode token inst (nth 0 operation_modes JNull) ;;
            for_each (tl operation_modes) (create_mode token inst)).
    destruct (issued_bind _
                (fun _ => for_each (tl operation_modes) (create_mode token inst))
                w st _
                (create_mode_run w token inst (nth 0 operation_modes JNull) id st Hid))
      as [rest Hrest].
    + intros _. emits_script; exact I.
    + eexists. exists rest. exact Hrest.
Qed.

(** C4 as the specification states it fails for the modes: an instance of the unknown device
    [Unknown-999] gets no batch call, and gets the three mode calls. *)
Lemma unknown_device_still_gets_modes :
  absent_from_table (JString "Unknown-999")
  /\ issued (create_parameter_mappings (JString "abc") (JArray [unknown_instance]))
            all_conflicts initial = []
  /\ map (fun x => (req_method (fst x), req_url (fst x)))
         (issued (create_operation_modes (JString "abc") (JArray [unknown_instance]))
                 all_conflicts initial)
     = [ ("POST", modes_url (JString "I-9"));
         ("POST", modes_url (JString "I-9"));
         ("POST", modes_url (JString "I-9")) ].
Proof. repeat split. Qed.

Lemma unknown_device_gets_no_mappings_witness :
  Forall (batch_of_known_device [unknown_instance])
         (map fst (issued (create_parameter_mappings (JString "abc")
                             (JArray [unknown_instance])) all_conflicts initial))
  /\ create_mappings (JString "abc") unknown_instance all_conflicts initial
     = (Returned tt, initial)
  /\ exists answer rest,
       issued (create_modes (JString "abc") unknown_instance) all_conflicts initial
       = (build_request "POST"
            [Lit "/motor-instances/"; Fmt (JString "I-9"); Lit "/modes"]
            (nth 0 operation_modes JNull) (JString "abc"), answer) :: rest.
Proof.
  apply (unknown_device_gets_no_mappings all_conflicts (JString "abc")
           (JArray [unknown_instance]) [unknown_instance] unknown_instance
           (JString "Unknown-999") (JString "I-9") initial).
  - reflexivity.
  - simpl. auto.
  - reflexivity.
  - reflexivity.
  - reflexivity.
Defined.

(** * Devices *)

Lemma show_device_run (d : json) (w : world) (st : state) :
  exists out, show_device d w st = (Returned tt, State (exchanges st) out).
Proof.
  unfold show_device. destruct d; simpl; try (destruct st; eexists; reflexivity).
  unfold bind, eval, dict_get, print.
  destruct (lookup "deviceId" kv), (lookup "name" kv); simpl; eexists; reflexivity.
Qed.

Lemma show_devices_run (ds : list json) (w : world) (st : state) :
  exists out, for_each ds show_device w st = (Returned tt, State (exchanges st) out).
Proof.
  revert st. induction ds as [| d ds IH]; intros st; simpl.
  - destruct st. eexists. reflexivity.
  - unfold bind. destruct (show_device_run d w st) as [out ->].
    destruct (IH (State (exchanges st) out)) as [out' ->]. eexists. reflexivity.
Qed.

Lemma get_devices_tail (devices : json) (w : world) (st : state) (n : Z)
    (ds : list json) :
  len devices = Returned n ->
  iter devices = Returned ds ->
  fst ((n <- eval (len devices) ;;
        print [Lit "  Found "; Fmt (JInt n); Lit " devices"] ;;
        ds <- eval (iter devices) ;;
        for_each ds show_device ;;
        ret devices) w st) = Returned devices.
Proof.
  intros Hlen Hiter. unfold bind. rewrite Hlen, Hiter. unfold print. simpl.
  match goal with
  | |- context [for_each ds show_device w ?s] =>
      destruct (show_devices_run ds w s) as [out ->]
  end.
  reflexivity.
Qed.

(** C9, as the script has it.  When the devices call gives an error string,
    the working set of devices is the empty list; when it gives a dict, the
    working set is its ['data'] when that is a list, the empty list when
    ['data'] is something else, and the dict itself when it has no ['data'];
    in each of these cases the stage returns. *)
Theorem devices_of_string_or_dict (w : world) (token : json) (st : state)
    (devices : json) :
  body_of (server w (exchanges st) (devices_request token)) = Some devices ->
  (forall s, devices = JString s ->
     fst (get_devices token w st) = Returned (JArray []))
  /\ (forall kv, devices = JObject kv ->
        fst (get_devices token w st) = Returned (devices_of_dict kv)).
Proof.
  intros Hbody.
  assert (Hrun : forall st0, exchanges st0 = exchanges st ->
            api_request "GET" [Lit "/devices"] JNull token w st0
            = (Returned (match status_of (server w (exchanges st) (devices_request token))
                         with Some s => s | None => 0 end, devices),
               State (exchanges st0
                        ++ [(devices_request token,
                             server w (exchanges st) (devices_request token))])
                     (stdout st0))).
  { intros st0 E. rewrite api_request_run. cbv zeta. fold (devices_request token).
    rewrite E.
    destruct (server w (exchanges st) (devices_request token))
      as [status body | code text | e]; simpl in Hbody; [| | discriminate];
      inversion Hbody; reflexivity. }
  split.
  - intros s ->. unfold get_devices. unfold bind at 1 2, print at 1.
    rewrite Hrun by reflexivity. cbn [is_str].
    unfold bind at 1 2 3. cbn [slice_to eval ret print].
    cbn [fst snd].
    match goal with
    | |- fst (bind (eval (len ?d)) _ _ ?s0) = _ =>
        apply (get_devices_tail d w s0 0 []); reflexivity
    end.
  - intros kv ->. unfold get_devices. unfold bind at 1 2, print at 1.
    rewrite Hrun by reflexivity. cbn [is_str is_dict].
    unfold devices_of_dict, has_key.
    destruct (lookup "data" kv) as [data |] eqn:Hdata.
    + unfold bind at 1 2 3, print at 1. cbn [getitem]. rewrite Hdata. cbn [eval ret].
      destruct data as [ | | | | | ds | ]; cbn [is_list];
        match goal with
        | |- fst (bind (eval (len (JArray ?l))) _ _ ?s0) = _ =>
            apply (get_devices_tail (JArray l) w s0 (Z.of_nat (List.length l)) l);
              reflexivity
        end.
    + unfold bind at 1 2, print at 1. cbn [ret].
      match goal with
      | |- fst (bind (eval (len ?d)) _ _ ?s0) = _ =>
          apply (get_devices_tail d w s0 (Z.of_nat (List.length kv))
                   (map (fun p => JString (fst p)) kv));
            reflexivity
      end.
Qed.

(** C9 as the specification states it fails on a dict without ['data'],
    which stays the working
    set, and on a body that is neither a string, a dict nor a list, where
    the stage raises. *)
Lemma devices_dict_is_kept_and_null_raises :
  fst (get_devices (JString "abc") (always (JObject [("total", JInt 0)])) initial)
    = Returned (JObject [("total", JInt 0)])
  /\ fst (get_devices (JString "abc") (always JNull) initial) = Raised TypeError.
Proof. split; reflexivity. Qed.

Lemma devices_of_string_or_dict_witness :
  (forall s, JObject [("data", JString "none")] = JString s ->
     fst (get_devices (JString "abc") (always (JObject [("data", JString "none")]))
            initial) = Returned (JArray []))
  /\ (forall kv, JObject [("data", JString "none")] = JObject kv ->
        fst (get_devices (JString "abc") (always (JObject [("data", JString "none")]))
               initial) = Returned (devices_of_dict kv)).
Proof.
  apply (devices_of_string_or_dict (always (JObject [("data", JString "none")]))
           (JString "abc") initial).
  reflexivity.
Defined.

(** * An empty working set of models *)

Lemma create_motor_instances_of_nothing (w : world) (token : json) (st : state) :
  create_motor_instances token (JArray []) w st
  = (Raised IndexError,
     State (exchanges st)
           (stdout st ++ [[Lit nl; Lit "=== 4. Create Motor Instances ==="]])).
Proof. reflexivity. Qed.

(** C10. When stage 2 ends with the empty list as its working set, the run
    ends with an uncaught exception: no request is made after the devices
    call of stage 3, and when stage 3 returns, the exception is the
    [IndexError] of [created_models[0]], raised while the first payload of
    stage 4 is built. *)
Theorem empty_working_set_aborts (w : world) (token : json) (st1 st2 : state) :
  login w initial = (Returned token, st1) ->
  create_motor_models token w st1 = (Returned (JArray []), st2) ->
  (exists e, fst (run_main w) = Raised e)
  /\ exchanges (snd (run_main w)) = exchanges (snd (get_devices token w st2))
  /\ (forall devices st3,
        get_devices token w st2 = (Returned devices, st3) ->
        fst (run_main w) = Raised IndexError)
  /\ (forall st,
        fst (create_motor_instances token (JArray []) w st) = Raised IndexError
        /\ exchanges (snd (create_motor_instances token (JArray []) w st))
           = exchanges st).
Proof.
  intros Hlogin Hmodels.
  assert (Hrun : run_main w =
                 match get_devices token w st2 with
                 | (Returned devices, st3) =>
                     (Raised IndexError,
                      State (exchanges st3)
                        (stdout st3 ++ [[Lit nl; Lit "=== 4. Create Motor Instances ==="]]))
                 | (Raised e, st3) => (Raised e, st3)
                 end).
  { rewrite main_run, Hlogin. unfold after_login. unfold bind at 1.
    rewrite Hmodels. unfold bind at 1.
    destruct (get_devices token w st2) as [[devices | e] st3]; [| reflexivity].
    unfold bind at 1. now rewrite create_motor_instances_of_nothing. }
  rewrite Hrun. split; [| split; [| split]].
  - destruct (get_devices token w st2) as [[devices | e] st3]; simpl; eauto.
  - destruct (get_devices token w st2) as [[devices | e] st3]; reflexivity.
  - intros devices st3 ->. reflexivity.
  - intros st. now rewrite create_motor_instances_of_nothing.
Qed.

Lemma empty_working_set_aborts_witness :
  fst (run_main nothing_stored) = Raised IndexError
  /\ List.length (exchanges (snd (run_main nothing_stored))) = 5%nat.
Proof.
  destruct (empty_working_set_aborts nothing_stored (JString "abc")
              (snd (login nothing_stored initial))
              (snd (create_motor_models (JString "abc") nothing_stored
                      (snd (login nothing_stored initial)))))
    as (_ & Hex & Hindex & _).
  - reflexivity.
  - reflexivity.
  - split.
    + eapply Hindex. reflexivity.
    + rewrite Hex. reflexivity.
Defined.


(** * Further properties of a run *)

Lemma emits_main (w : world) (P : request -> Prop) :
  emits w P login -> (forall token, emits w P (after_login token)) -> emits w P main.
Proof. intros Hl Ha. unfold main. now apply emits_bind. Qed.

Lemma emits_run (w : world) (P : request -> Prop) :
  emits w P main -> Forall P (requests (snd (run_main w))).
Proof.
  intros H. destruct (H initial) as [[new [E F]] _].
  unfold requests, run_main. now rewrite E.
Qed.

(** X1. Whatever the service does, the first request of a run is the login
    call: a [POST] of the fixed credentials to [/auth/login], without an
    [Authorization] header. *)
Theorem run_starts_with_login (w : world) :
  exists rest,
    requests (snd (run_main w)) = login_request :: rest
    /\ req_method login_request = "POST"
    /\ req_url login_request = [Lit API_BASE; Lit "/auth/login"]
    /\ req_body login_request = Some login_payload
    /\ find_header "Authorization" (req_headers login_request) = None.
Proof.
  destruct (login_run w initial) as [Hex _].
  change (exchanges initial) with (@nil exchange) in Hex. simpl in Hex.
  assert (Hafter : forall token, emits w (fun _ => True) (after_login token))
    by (intros token; emits_script; exact I).
  rewrite main_run.
  destruct (login w initial) as [[token | e] st1]; simpl in Hex.
  - destruct (Hafter token st1) as [[new [E _]] _].
    exists (map fst new). unfold requests. rewrite E, Hex. simpl. auto.
  - exists []. unfold requests. simpl. rewrite Hex. simpl. auto.
Qed.

Lemma build_request_api_call (method : string) (endpoint : fstring)
    (data token : json) :
  method = "GET" \/ method = "POST" ->
  api_call (build_request method endpoint data token).
Proof.
  intros H. unfold api_call, build_request. simpl.
  destruct (truthy token); simpl; auto.
Qed.

(** X2. Every request of a run is a JSON call to the API: it carries
    [Content-Type: application/json], its URL starts with the base address,
    and its method is [GET] or [POST]; the script never sends another
    method. *)
Theorem every_request_is_an_api_call (w : world) :
  Forall api_call (requests (snd (run_main w))).
Proof.
  apply emits_run. apply emits_main.
  - unfold login. emits_script. apply build_request_api_call. auto.
  - intros token. emits_script; apply build_request_api_call; auto.
Qed.

(** Building the payloads of stage 4 makes no request, and what it returns
    is the two payloads. *)
Lemma motor_instances_yields (w : world) (P : request -> Prop) (created_models : json) :
  yields w P (fun insts => exists id1 id2, insts = instance_payloads id1 id2)
    (motor_instances created_models).
Proof.
  destruct (motor_instances_pure created_models) as [o Hpure].
  apply yields_quiet.
  - intros st. now rewrite Hpure.
  - intros st insts H.
    destruct (motor_instances_returned _ _ _ _ H)
      as (_ & _ & _ & id1 & id2 & _ & _ & _ & _ & _ & _ & ->).
    now exists id1, id2.
Qed.

(** The entries of the table of stage 5 are its two lists of mappings. *)
Lemma table_get_returned (device_id mappings : json) :
  table_get parameter_mappings device_id = Returned mappings ->
  exists d, device_id = JString d
            /\ lookup d parameter_mappings = Some mappings
            /\ truthy mappings = true.
Proof.
  destruct device_id as [ | | | | d | | ]; simpl; try discriminate.
  destruct (String.eqb d "Motor-001") eqn:E1;
    [| destruct (String.eqb d "SIM-PLC-001") eqn:E2];
    intros H; inversion H; subst; exists d; simpl; rewrite E1, ?E2; auto.
Qed.

Ltac split_membership :=
  repeat match goal with
         | H : In _ _ |- _ => progress simpl in H
         | H : _ = _ \/ _ |- _ => destruct H as [<- | H]
         | H : False |- _ => destruct H
         end.

Ltac bodiless :=
  split_membership;
  unfold bodiless_iff_get_or_diagnose, build_request, last_literal; simpl;
  let H := fresh in
  split; [try discriminate; auto | intros [H | H]; try discriminate H; reflexivity].

(** X3. In a run, the requests sent without a body are the [GET] calls and
    the diagnosis calls, and no other: every [POST] of the other stages
    carries its payload. *)
Theorem body_missing_only_on_get_and_diagnose (w : world) :
  Forall bodiless_iff_get_or_diagnose (requests (snd (run_main w))).
Proof.
  apply emits_run. apply emits_main.
  - unfold login. emits_script. bodiless.
  - intros token. unfold after_login. repeat emits_step.
    + emits_script; bodiless.
    + emits_script; bodiless.
    + unfold create_motor_instances.
      apply emits_bind; [apply emits_print | intros _].
      apply (emits_bind_post w _ _ _ _ (motor_instances_yields w _ _)).
      intros insts (id1 & id2 & ->).
      emits_script; bodiless.
    + unfold create_parameter_mappings, create_mappings.
      apply emits_bind; [apply emits_print | intros _].
      apply emits_bind_eval. intros insts _.
      apply emits_for_each. intros inst _.
      apply emits_bind_eval. intros device_id _.
      apply emits_bind_eval. intros known _.
      destruct known; [| apply emits_ret].
      apply emits_bind_eval. intros mappings Hm.
      apply table_get_returned in Hm. destruct Hm as (d & _ & _ & Htruthy).
      emits_script.
      unfold bodiless_iff_get_or_diagnose, build_request, last_literal. simpl.
      rewrite Htruthy.
      split; [discriminate | intros [H | H]; discriminate H].
    + emits_script; bodiless.
    + emits_script; bodiless.
    + emits_script; bodiless.
    + emits_script; bodiless.
Qed.

Lemma after_login_authorization (w : world) (token : json) :
  emits w (fun r => find_header "Authorization" (req_headers r)
                    = authorization_for token)
    (after_login token).
Proof.
  emits_script; unfold authorization_for, build_request; simpl;
    destruct (truthy token); reflexivity.
Qed.

(** X4. The requests after the login carry [Authorization: Bearer <token>]
    when the token the login gave is true as a condition, and no
    [Authorization] header at all when it is not (the empty string, the
    empty list): the script goes on without a credential. *)
Theorem authorization_follows_token (w : world) (token : json) (st : state) :
  login w initial = (Returned token, st) ->
  Forall (fun r => find_header "Authorization" (req_headers r)
                   = authorization_for token)
         (tl (requests (snd (run_main w)))).
Proof.
  intros Hlogin. rewrite main_run, Hlogin.
  destruct (login_run w initial) as [Hex _]. rewrite Hlogin in Hex. simpl in Hex.
  destruct (after_login_authorization w token st) as [[new [E F]] _].
  unfold requests. rewrite E, Hex. simpl. exact F.
Qed.

Lemma authorization_follows_token_witness :
  Forall (fun r => find_header "Authorization" (req_headers r) = None)
         (tl (requests (snd (run_main (login_with (JString "")))))).
Proof.
  apply (authorization_follows_token (login_with (JString "")) (JString "")
           (snd (login (login_with (JString "")) initial))).
  reflexivity.
Defined.

(** X5. A token that is present in the login body but is neither a string
    nor a list ends the run with an exception when its first 50 characters
    are taken for display, and the login call is the only request made; the
    exception is a [TypeError] for a number, [null] or a boolean (for a
    dict its class depends on the version of Python). *)
Theorem unsliceable_token_aborts (w : world) (resp data token : json) :
  body_of (server w [] login_request) = Some resp ->
  getitem resp "data" = Returned data ->
  getitem data "token" = Returned token ->
  is_str token = false ->
  is_list token = false ->
  (exists e, fst (run_main w) = Raised e /\ (is_dict token = false -> e = TypeError))
  /\ requests (snd (run_main w)) = [login_request].
Proof.
  intros Hbody Hdata Htoken Hstr Hlist.
  assert (Hslice : exists e,
             slice_to token 50 = Raised e /\ (is_dict token = false -> e = TypeError))
    by (destruct token; simpl in *; try congruence; eexists; split;
        try reflexivity; congruence).
  destruct Hslice as [e [Hslice Hclass]].
  assert (Hlogin : exists out,
             login w initial
             = (Raised e, State [(login_request, server w [] login_request)] out)).
  { unfold login, bind, print. rewrite api_request_run. cbv zeta.
    fold login_request. cbn [exchanges stdout initial app].
    destruct (server w [] login_request) as [status body | code text | e0];
      simpl in Hbody; [| | discriminate]; inversion Hbody; subst resp;
      cbn [fst snd]; rewrite Hdata; cbn [eval ret]; rewrite ?Htoken;
      cbn [eval ret]; rewrite ?Hslice; cbn [eval raise];
      eexists; reflexivity. }
  destruct Hlogin as [out Hlogin]. rewrite main_run, Hlogin.
  split; [exists e; split; [reflexivity | exact Hclass] | reflexivity].
Qed.

Lemma unsliceable_token_aborts_witness :
  (exists e, fst (run_main (login_with (JInt 12345))) = Raised e
             /\ (is_dict (JInt 12345) = false -> e = TypeError))
  /\ requests (snd (run_main (login_with (JInt 12345)))) = [login_request].
Proof.
  apply (unsliceable_token_aborts (login_with (JInt 12345))
           (JObject [("data", JObject [("token", JInt 12345)])])
           (JObject [("token", JInt 12345)]) (JInt 12345));
    reflexivity.
Defined.

(** * Working sets *)

Section WorkingSets.
Variables (endpoint id_key : string) (token : json) (w : world).
Variables (checking : fstring) (found : Z -> fstring).

(** One round of the creation loop, whatever the service does: one creation
    call, and when the round returns, the working set has grown by the
    entity the call was answered with, if its status is 201. *)
Lemma create_entity_grows (item : json) (acc : list json) (st : state) :
  let x := (creation endpoint item token,
            server w (exchanges st) (creation endpoint item token)) in
  exchanges (snd (create_entity endpoint id_key token item acc w st))
    = exchanges st ++ [x]
  /\ forall acc',
       fst (create_entity endpoint id_key token item acc w st) = Returned acc' ->
       acc' = acc ++ created_by x.
Proof.
  cbv zeta. unfold create_entity, bind. rewrite api_request_run. cbv zeta.
  fold (creation endpoint item token). unfold created_by.
  destruct (server w (exchanges st) (creation endpoint item token))
    as [status body | code text | e]; cbn [fst snd status_of body_of].
  - change (req_method (creation endpoint item token)) with "POST". cbn [String.eqb].
    simpl (Ascii.eqb _ _). simpl andb.
    destruct (status =? 201).
    + unfold eval, print.
      destruct (getitem (unwrap_items body) "name"); simpl;
        [destruct (getitem (unwrap_items body) id_key); simpl |];
        (split; [reflexivity |]); intros acc' H; inversion H; reflexivity.
    + unfold eval, print. destruct (getitem item "name"); simpl;
        (split; [reflexivity |]); intros acc' H; inversion H;
        now rewrite app_nil_r.
  - change (req_method (creation endpoint item token)) with "POST". cbn [String.eqb].
    simpl (Ascii.eqb _ _). simpl andb.
    destruct (code =? 201).
    + unfold eval, print. simpl. split; [reflexivity |]. discriminate.
    + unfold eval, print. destruct (getitem item "name"); simpl;
        (split; [reflexivity |]); intros acc' H; inversion H;
        now rewrite app_nil_r.
  - simpl. split; [reflexivity | discriminate].
Qed.

(** The loop, whatever the service does: when it returns, the working set is
    the entities answered with 201, in the order of the calls. *)
Lemma collect_grows (items : list json) :
  forall (acc : list json) (st : state),
  exists new,
    exchanges (snd (collect items acc (create_entity endpoint id_key token) w st))
      = exchanges st ++ new
    /\ Forall (fun x => req_method (fst x) = "POST") new
    /\ forall created,
         fst (collect items acc (create_entity endpoint id_key token) w st)
           = Returned created ->
         created = acc ++ created_of new /\ List.length new = List.length items.
Proof.
  induction items as [| item items IH]; intros acc st; simpl.
  - exists []. rewrite app_nil_r. split; [reflexivity |]. split; [constructor |].
    intros created H. inversion H. simpl. now rewrite app_nil_r.
  - unfold bind.
    destruct (create_entity_grows item acc st) as [E Hgrow]. cbv zeta in E, Hgrow.
    set (x := (creation endpoint item token,
               server w (exchanges st) (creation endpoint item token))) in *.
    destruct (create_entity endpoint id_key token item acc w st) as [[acc' | e] st1];
      simpl in E, Hgrow.
    + destruct (IH acc' st1) as [new [E' [Hposts Hcreated]]].
      exists (x :: new). rewrite E', E, <- app_assoc.
      split; [reflexivity |]. split; [constructor; [reflexivity | exact Hposts] |].
      intros created H. destruct (Hcreated created H) as [-> Hlen].
      rewrite (Hgrow acc' eq_refl), <- app_assoc. simpl. now rewrite Hlen.
    + exists [x]. split; [exact E |]. split; [repeat constructor |]. discriminate.
Qed.
End WorkingSets.

Lemma created_by_get (endpoint : string) (token : json) (r : http_result) :
  created_by (collection_request endpoint token, r) = [].
Proof. unfold created_by. destruct r; reflexivity. Qed.

Lemma created_of_app (l1 l2 : list exchange) :
  created_of (l1 ++ l2) = created_of l1 ++ created_of l2.
Proof. unfold created_of. apply flat_map_app. Qed.

Lemma create_or_discover_created (endpoint id_key : string) (token : json)
    (w : world) (checking : fstring) (found : Z -> fstring)
    (items : list json) (st : state) (ws : json) :
  let stage := create_or_discover endpoint id_key checking found token items in
  fst (stage w st) = Returned ws ->
  created_of (issued stage w st) <> [] ->
  ws = JArray (created_of (issued stage w st)).
Proof.
  cbv zeta. unfold create_or_discover, issued, bind.
  destruct (collect_grows endpoint id_key token w items [] st) as [new [E [_ Hc]]].
  destruct (collect items [] (create_entity endpoint id_key token) w st)
    as [[created | e] st1]; simpl in E, Hc; cbn [fst snd]; [| discriminate].
  destruct (Hc created eq_refl) as [Hcreated _]. simpl in Hcreated.
  pose proof (discover_run endpoint token w checking found created st1) as Ed.
  cbv zeta in Ed. rewrite E in Ed at 1. rewrite <- app_assoc in Ed.
  rewrite Ed, skipn_length_app.
  destruct created as [| c rest].
  - intros _ Hne. exfalso. apply Hne.
    rewrite created_of_app, <- Hcreated. simpl.
    fold (collection_request endpoint token).
    now rewrite created_by_get.
  - rewrite app_nil_r, <- Hcreated. unfold discover. simpl.
    intros H _. now inversion H.
Qed.

(** X6. When a creation stage returns after at least one of its creation
    calls was answered with 201, its working set is the list of the
    entities those calls were answered with, in the order of the calls
    (unwrapped from a page, like every body). *)
Theorem working_set_is_what_was_created (w : world) (token created_models : json)
    (st st' : state) (models instances : json) :
  fst (create_motor_models token w st) = Returned models ->
  fst (create_motor_instances token created_models w st') = Returned instances ->
  (created_of (issued (create_motor_models token) w st) <> [] ->
   models = JArray (created_of (issued (create_motor_models token) w st)))
  /\ (created_of (issued (create_motor_instances token created_models) w st') <> [] ->
      instances
      = JArray (created_of (issued (create_motor_instances token created_models) w st'))).
Proof.
  intros Hmodels Hinstances. split.
  - rewrite create_motor_models_is in *. rewrite issued_after_print.
    now apply create_or_discover_created.
  - rewrite create_motor_instances_is in *. rewrite issued_after_print.
    destruct (motor_instances_pure created_models) as [[insts | e] Hpure].
    + rewrite (issued_after_pure _ _ _ _ _ (Hpure _ _)).
      apply create_or_discover_created.
      unfold bind, print in Hinstances. rewrite Hpure in Hinstances.
      exact Hinstances.
    + unfold bind, print in Hinstances. rewrite Hpure in Hinstances. discriminate.
Qed.

Lemma working_set_is_what_was_created_witness :
  JArray [ stored_model "M-1" "Standard Induction Motor 15kW";
           stored_model "M-1" "Standard Induction Motor 15kW" ]
  = JArray (created_of (issued (create_motor_models (JString "abc")) fresh initial)).
Proof.
  destruct (working_set_is_what_was_created fresh (JString "abc")
              (JArray [stored_model "M-1" "Standard Induction Motor 15kW"])
              initial initial
              (JArray [ stored_model "M-1" "Standard Induction Motor 15kW";
                        stored_model "M-1" "Standard Induction Motor 15kW" ])
              (JArray [ stored_instance "I-1" "Motor-001" "Main Drive Motor #1";
                        stored_instance "I-1" "Motor-001" "Main Drive Motor #1" ]))
    as [H _].
  - reflexivity.
  - reflexivity.
  - apply H. vm_compute. discriminate.
Defined.

Section Discovery.
Variables (endpoint id_key : string) (token : json) (w : world).
Variables (checking : fstring) (found : Z -> fstring).
Hypothesis rejected : rejects_creations w endpoint token.

(** When every creation call is rejected, the loop returns with the working
    set it started with, after one call for each item. *)
Lemma collect_rejected (items : list json) :
  Forall named items ->
  forall (acc : list json) (st : state),
  exists new out,
    collect items acc (create_entity endpoint id_key token) w st
      = (Returned acc, State (exchanges st ++ new) out)
    /\ List.length new = List.length items
    /\ Forall (fun x => req_method (fst x) = "POST") new.
Proof.
  induction 1 as [| item items [name Hname] _ IH]; intros acc st; simpl.
  - exists [], (stdout st). rewrite app_nil_r. destruct st. repeat split. constructor.
  - destruct (rejected (exchanges st) item) as [status [Hstatus Hne]].
    destruct (create_entity_rejected endpoint id_key token item acc w st status name
                Hstatus Hne Hname) as [out1 E1].
    unfold bind. rewrite E1.
    destruct (IH acc (State (exchanges st ++ [(creation endpoint item token,
                server w (exchanges st) (creation endpoint item token))]) out1))
      as (new & out & E & Hlen & Hposts).
    cbn [exchanges] in E. rewrite <- app_assoc in E.
    eexists. exists out. split; [exact E |]. split.
    + simpl. now rewrite Hlen.
    + constructor; [reflexivity | exact Hposts].
Qed.

Lemma discover_nothing (st : state) :
  fst (discover endpoint checking found token [] w st)
  = discovered (server w (exchanges st) (collection_request endpoint token)).
Proof.
  unfold discover. cbn [truthy negb]. unfold bind, print.
  rewrite api_request_run. cbv zeta. cbn [exchanges stdout].
  fold (collection_request endpoint token). unfold discovered.
  destruct (server w (exchanges st) (collection_request endpoint token))
    as [status body | code text | e]; cbn [fst snd]; unfold eval;
    try destruct (len (unwrap_items body)); reflexivity.
Qed.

Lemma create_or_discover_falls_back (items : list json) (st : state) :
  Forall named items ->
  falls_back w endpoint token
    (create_or_discover endpoint id_key checking found token items) st
    (List.length items).
Proof.
  intros Hnamed.
  destruct (collect_rejected items Hnamed [] st) as (new & out & E & Hlen & Hposts).
  exists new, (server w (exchanges st ++ new) (collection_request endpoint token)).
  unfold create_or_discover, issued, bind. rewrite E. cbn [fst snd].
  pose proof (discover_run endpoint token w checking found []
                (State (exchanges st ++ new) out)) as Ed.
  cbv zeta in Ed. cbn [exchanges] in Ed.
  rewrite Ed, <- app_assoc, skipn_length_app.
  repeat split; auto.
  apply (discover_nothing (State (exchanges st ++ new) out)).
Qed.
End Discovery.

(** X7. When the service rejects every creation call of a stage, the stage
    makes its two creation calls and then the [GET] of the collection, and
    its working set is that collection as the call returns it: the items of
    a page or the parsed body, but also the text of an HTTP error; the
    stage raises when the [GET] does, or when the body has no length. *)
Theorem rejected_creations_fall_back (w : world) (token created_models : json)
    (st st' : state) (insts : list json) :
  rejects_creations w "/motor-models" token ->
  rejects_creations w "/motor-instances" token ->
  fst (motor_instances created_models w st') = Returned insts ->
  falls_back w "/motor-models" token (create_motor_models token) st 2
  /\ falls_back w "/motor-instances" token
       (create_motor_instances token created_models) st' 2.
Proof.
  intros Hmodels Hinsts Hbuilt. split.
  - rewrite create_motor_models_is.
    destruct (create_or_discover_falls_back "/motor-models" "modelId" token w
                [Lit "No models created, checking existing..."]
                (fun n => [Lit "  Found "; Fmt (JInt n); Lit " existing models"])
                Hmodels motor_models
                (State (exchanges st)
                   (stdout st ++ [[Lit nl; Lit "=== 2. Create Motor Models ==="]]))
                motor_models_named)
      as (posts & r & H).
    exists posts, r. exact H.
  - rewrite create_motor_instances_is.
    destruct (motor_instances_returned _ _ _ _ Hbuilt)
      as (models & first & pick & id1 & id2 & _ & _ & _ & _ & _ & _ & ->).
    destruct (motor_instances_pure created_models) as [o Hpure].
    rewrite Hpure in Hbuilt. simpl in Hbuilt. subst o.
    destruct (create_or_discover_falls_back "/motor-instances" "instanceId" token w
                [Lit "No instances created, checking existing..."]
                (fun n => [Lit "  Found "; Fmt (JInt n); Lit " existing instances"])
                Hinsts (instance_payloads id1 id2)
                (State (exchanges st')
                   (stdout st' ++ [[Lit nl; Lit "=== 4. Create Motor Instances ==="]]))
                (instance_payloads_named id1 id2))
      as (posts & r & H).
    exists posts, r. unfold issued, bind, print in *. rewrite Hpure. exact H.
Qed.

Lemma rejected_creations_fall_back_witness :
  falls_back all_conflicts "/motor-models" (JString "abc")
    (create_motor_models (JString "abc")) initial 2
  /\ falls_back all_conflicts "/motor-instances" (JString "abc")
       (create_motor_instances (JString "abc")
          (JArray [stored_model "M-1" "Standard Induction Motor 15kW"]))
       initial 2.
Proof.
  apply (rejected_creations_fall_back all_conflicts (JString "abc")
           (JArray [stored_model "M-1" "Standard Induction Motor 15kW"])
           initial initial (instance_payloads (JString "M-1") (JString "M-1"))).
  - intros history item. exists 409. split; [reflexivity | lia].
  - intros history item. exists 409. split; [reflexivity | lia].
  - reflexivity.
Defined.

(** * Stage 4 without models *)

(** X8. Stage 4 makes no request at all when its payloads cannot be built:
    a working set that is not a list (the text of an HTTP error, a dict)
    ends the stage with an exception right after its banner, and so does a
    list whose first element has no [modelId]. *)
Theorem stage_4_aborts_without_request (w : world) (token created_models : json)
    (st : state) (first : json) (rest : list json) (e : exn) :
  (is_list created_models = false ->
   create_motor_instances token created_models w st
   = (Raised (not_a_list_error created_models), after_banner_4 st))
  /\ (created_models = JArray (first :: rest) ->
      getitem first "modelId" = Raised e ->
      create_motor_instances token created_models w st
      = (Raised e, after_banner_4 st)).
Proof.
  split.
  - intros Hlist. unfold create_motor_instances, motor_instances, bind, print.
    destruct created_models as [ | | | | s | | ]; try discriminate; try reflexivity.
    destruct s as [| c s]; reflexivity.
  - intros -> Hfirst. unfold create_motor_instances, motor_instances, bind, print.
    simpl. rewrite Hfirst. reflexivity.
Qed.

Lemma stage_4_aborts_without_request_witness :
  create_motor_instances (JString "abc") (JString "already exists") all_conflicts initial
  = (Raised TypeError, after_banner_4 initial)
  /\ create_motor_instances (JString "abc") (JArray [JObject [("name", JString "M")]])
       all_conflicts initial
     = (Raised KeyError, after_banner_4 initial).
Proof.
  split.
  - destruct (stage_4_aborts_without_request all_conflicts (JString "abc")
                (JString "already exists") initial JNull [] TypeError) as [H _].
    apply H. reflexivity.
  - destruct (stage_4_aborts_without_request all_conflicts (JString "abc")
                (JArray [JObject [("name", JString "M")]]) initial
                (JObject [("name", JString "M")]) [] KeyError) as [_ H].
    apply H; reflexivity.
Defined.

(** * The batch call of stage 5 *)

Lemma create_mappings_known (w : world) (token inst id mappings : json)
    (d : string) (st : state) :
  getitem inst "deviceId" = Returned (JString d) ->
  lookup d parameter_mappings = Some mappings ->
  getitem inst "instanceId" = Returned id ->
  let r := server w (exchanges st) (batch_request id mappings token) in
  create_mappings token inst w st
  = (let k :=
       (match r with
        | Responded status resp_data => ret (status, unwrap_items resp_data)
        | HTTPError code text => ret (code, JString text)
        | Failed e => raise e
        end) in
     '(status, resp) <- k ;;
     if status =? 200 then
       created <- eval (getitem resp "created") ;;
       name <- eval (getitem inst "name") ;;
       print [Lit "  Created "; Fmt created; Lit " mappings for "; Fmt name]
     else
       print [Lit "  Error: "; Fmt resp])
      w (State (exchanges st ++ [(batch_request id mappings token, r)]) (stdout st)).
Proof.
  intros Hdev Hlookup Hid. cbv zeta.
  unfold create_mappings. unfold bind at 1 2 3 4 5.
  rewrite Hdev. cbn [eval ret in_table]. rewrite Hlookup. cbn [eval ret table_get].
  rewrite Hlookup. cbn [eval ret]. rewrite Hid. cbn [eval ret].
  unfold api_request, urlopen. unfold bind at 1 2 3.
  fold (batch_request id mappings token). reflexivity.
Qed.

(** X9. For an instance whose [deviceId] is a key of the table, stage 5
    makes exactly one call, whatever the answer: a [POST] to the batch
    endpoint of the instance whose body is the table's list of mappings for
    that device. *)
Theorem known_device_gets_one_batch_call (w : world) (token inst id mappings : json)
    (d : string) (st : state) :
  getitem inst "deviceId" = Returned (JString d) ->
  lookup d parameter_mappings = Some mappings ->
  getitem inst "instanceId" = Returned id ->
  issued (create_mappings token inst) w st
  = [(batch_request id mappings token,
      server w (exchanges st) (batch_request id mappings token))]
  /\ req_url (batch_request id mappings token) = mappings_url id
  /\ req_body (batch_request id mappings token) = Some mappings.
Proof.
  intros Hdev Hlookup Hid. split; [| split].
  - unfold issued. rewrite (create_mappings_known w token inst id mappings d st)
      by assumption.
    cbv zeta. unfold bind.
    destruct (server w (exchanges st) (batch_request id mappings token))
      as [status body | code text | e]; cbn [ret raise];
      [destruct (status =? 200) | destruct (code =? 200) |];
      unfold eval, print;
      try destruct (getitem (unwrap_items body) "created");
      try destruct (getitem (JString text) "created");
      try destruct (getitem inst "name");
      cbn [ret raise snd exchanges]; apply skipn_length_app.
  - reflexivity.
  - assert (Htruthy : truthy mappings = true).
    { destruct (table_get_returned (JString d) mappings) as (_ & _ & _ & H); auto.
      unfold table_get. now rewrite Hlookup. }
    unfold batch_request, build_request. simpl. now rewrite Htruthy.
Qed.

Lemma known_device_gets_one_batch_call_witness :
  issued (create_mappings (JString "abc")
            (stored_instance "I-1" "Motor-001" "Main Drive Motor #1"))
         all_conflicts initial
  = [(batch_request (JString "I-1")
        (JArray
           [ mapping 40 "Motor1_Temp" (float_of 1 0) true;
             mapping 3 "Motor1_Current" (float_of 1 0) true;
             mapping 21 "Motor1_Speed" (JInt 30) true;
             mapping 20 "Torque" (float_of 1 0) true ])
        (JString "abc"),
      HTTPError 409 "already exists")].
Proof.
  destruct (known_device_gets_one_batch_call all_conflicts (JString "abc")
              (stored_instance "I-1" "Motor-001" "Main Drive Motor #1")
              (JString "I-1")
              (JArray
                 [ mapping 40 "Motor1_Temp" (float_of 1 0) true;
                   mapping 3 "Motor1_Current" (float_of 1 0) true;
                   mapping 21 "Motor1_Speed" (JInt 30) true;
                   mapping 20 "Torque" (float_of 1 0) true ])
              "Motor-001" initial eq_refl eq_refl eq_refl) as [H _].
  exact H.
Defined.

(** X10. The answer to the batch call: any status other than 200 is printed
    and the loop goes on; a 200 whose body has no ['created'] to print ends
    the run with the exception of that lookup. *)
Theorem batch_answer_outcomes (w : world) (token inst id mappings : json)
    (d : string) (st : state) (status : Z) (resp : json) :
  getitem inst "deviceId" = Returned (JString d) ->
  lookup d parameter_mappings = Some mappings ->
  getitem inst "instanceId" = Returned id ->
  status_of (server w (exchanges st) (batch_request id mappings token)) = Some status ->
  body_of (server w (exchanges st) (batch_request id mappings token)) = Some resp ->
  (status <> 200 -> fst (create_mappings token inst w st) = Returned tt)
  /\ (status = 200 ->
      forall e, getitem resp "created" = Raised e ->
      fst (create_mappings token inst w st) = Raised e).
Proof.
  intros Hdev Hlookup Hid Hstatus Hbody.
  rewrite (create_mappings_known w token inst id mappings d st) by assumption.
  cbv zeta. unfold bind.
  destruct (server w (exchanges st) (batch_request id mappings token))
    as [s body | code text | e0]; simpl in Hstatus, Hbody; [| | discriminate];
    inversion Hstatus; subst; inversion Hbody; subst; cbn [ret].
  - split.
    + intros Hne. destruct (Z.eqb_spec status 200); [contradiction | reflexivity].
    + intros -> e He. simpl. unfold eval. rewrite He. reflexivity.
  - split.
    + intros Hne. destruct (Z.eqb_spec status 200); [contradiction | reflexivity].
    + intros -> e He. simpl. simpl in He. inversion He. reflexivity.
Qed.

Lemma batch_answer_outcomes_witness :
  fst (create_mappings (JString "abc")
         (stored_instance "I-1" "Motor-001" "Main Drive Motor #1")
         all_conflicts initial) = Returned tt
  /\ fst (create_mappings (JString "abc")
            (stored_instance "I-1" "Motor-001" "Main Drive Motor #1")
            (always (JObject [("count", JInt 4)])) initial) = Raised KeyError.
Proof.
  split.
  - destruct (batch_answer_outcomes all_conflicts (JString "abc")
                (stored_instance "I-1" "Motor-001" "Main Drive Motor #1")
                (JString "I-1")
                (JArray
                   [ mapping 40 "Motor1_Temp" (float_of 1 0) true;
                     mapping 3 "Motor1_Current" (float_of 1 0) true;
                     mapping 21 "Motor1_Speed" (JInt 30) true;
                     mapping 20 "Torque" (float_of 1 0) true ])
                "Motor-001" initial 409 (JString "already exists")
                eq_refl eq_refl eq_refl eq_refl eq_refl) as [H _].
    apply H. lia.
  - destruct (batch_answer_outcomes (always (JObject [("count", JInt 4)]))
                (JString "abc")
                (stored_instance "I-1" "Motor-001" "Main Drive Motor #1")
                (JString "I-1")
                (JArray
                   [ mapping 40 "Motor1_Temp" (float_of 1 0) true;
                     mapping 3 "Motor1_Current" (float_of 1 0) true;
                     mapping 21 "Motor1_Speed" (JInt 30) true;
                     mapping 20 "Torque" (float_of 1 0) true ])
                "Motor-001" initial 200 (JObject [("count", JInt 4)])
                eq_refl eq_refl eq_refl eq_refl eq_refl) as [_ H].
    apply H; reflexivity.
Defined.

(** * Stages 6 and 7 on identified instances *)

Lemma issued_requests {A} (m : M A) (w : world) (st : state) (rs : list request) :
  requests (snd (m w st)) = requests st ++ rs -> map fst (issued m w st) = rs.
Proof.
  unfold issued, requests. intros H.
  etransitivity; [symmetry; apply skipn_map |].
  etransitivity; [apply f_equal; exact H |].
  pose proof (skipn_length_app (map fst (exchanges st)) rs) as E.
  rewrite length_map in E. exact E.
Qed.

(** A loop whose rounds all return, each adding its own requests. *)
Lemma for_each_requests {A} (w : world) (xs : list A) (body : A -> M unit)
    (reqs : A -> list request) :
  (forall x st, In x xs ->
     fst (body x w st) = Returned tt
     /\ requests (snd (body x w st)) = requests st ++ reqs x) ->
  forall st,
    fst (for_each xs body w st) = Returned tt
    /\ requests (snd (for_each xs body w st)) = requests st ++ flat_map reqs xs.
Proof.
  induction xs as [| x xs IH]; intros H st; simpl.
  - now rewrite app_nil_r.
  - unfold bind. destruct (H x st (or_introl eq_refl)) as [Hret Hreq].
    destruct (body x w st) as [[[] | e] st1]; simpl in Hret, Hreq; [| discriminate].
    destruct (IH (fun y s Hy => H y s (or_intror Hy)) st1) as [Hret' Hreq'].
    split; [exact Hret' |]. now rewrite Hreq', Hreq, app_assoc.
Qed.

Lemma create_mode_resilient (w : world) (token inst mode : json) (st : state) :
  never_fails w -> identified inst -> named mode ->
  fst (create_mode token inst mode w st) = Returned tt
  /\ requests (snd (create_mode token inst mode w st))
     = requests st
       ++ [build_request "POST"
             [Lit "/motor-instances/"; Fmt (instance_id inst); Lit "/modes"]
             mode token].
Proof.
  intros Hw (id & name & Hid & Hname) [mode_name Hmode].
  unfold create_mode, instance_id, bind. rewrite Hid. cbn [eval ret].
  rewrite api_request_run. cbv zeta.
  pose proof (Hw (exchanges st)
                (build_request "POST"
                   [Lit "/motor-instances/"; Fmt id; Lit "/modes"] mode token)) as Hans.
  destruct (server w (exchanges st) _) as [status body | code text | e];
    [destruct (status =? 201) | destruct (code =? 201) | simpl in Hans; congruence];
    rewrite ?Hmode, ?Hname; unfold requests; simpl; rewrite map_app; auto.
Qed.

Lemma start_learning_resilient (w : world) (token inst : json)
    (start_ts end_ts : Z) (st : state) :
  never_fails w -> identified inst ->
  fst (start_learning token start_ts end_ts inst w st) = Returned tt
  /\ requests (snd (start_learning token start_ts end_ts inst w st))
     = requests st
       ++ [build_request "POST"
             [Lit "/motor-instances/"; Fmt (instance_id inst); Lit "/learn-all"]
             (learning_window start_ts end_ts) token].
Proof.
  intros Hw (id & name & Hid & Hname).
  unfold start_learning, instance_id, bind. rewrite Hid. cbn [eval ret].
  rewrite api_request_run. cbv zeta.
  pose proof (Hw (exchanges st)
                (build_request "POST"
                   [Lit "/motor-instances/"; Fmt id; Lit "/learn-all"]
                   (learning_window start_ts end_ts) token)) as Hans.
  destruct (server w (exchanges st) _) as [status body | code text | e];
    [destruct (status =? 200) | destruct (code =? 200) | simpl in Hans; congruence];
    rewrite ?Hname; unfold requests; simpl; rewrite map_app; auto.
Qed.

Lemma operation_modes_named : Forall named operation_modes.
Proof. repeat constructor; eexists; reflexivity. Qed.

Lemma flat_map_singleton {A B} (f : A -> B) (l : list A) :
  flat_map (fun x => [f x]) l = map f l.
Proof. induction l as [| x l IH]; simpl; [reflexivity | now rewrite IH]. Qed.

(** X11. Against a service that answers every call, stage 6 returns for a
    working set of identified instances whatever the statuses are, and
    makes exactly three calls for each instance, in the order of the
    instances and, for each instance, of the list of modes (Normal
    Operation, Low Speed, Idle/Standby). *)
Theorem modes_posted_for_every_instance (w : world) (token : json)
    (insts : list json) (st : state) :
  never_fails w ->
  Forall identified insts ->
  fst (create_operation_modes token (JArray insts) w st) = Returned tt
  /\ map fst (issued (create_operation_modes token (JArray insts)) w st)
     = flat_map (mode_requests token) insts.
Proof.
  intros Hw Hinsts. rewrite Forall_forall in Hinsts.
  assert (Hmodes : forall inst s, In inst insts ->
            fst (create_modes token inst w s) = Returned tt
            /\ requests (snd (create_modes token inst w s))
               = requests s ++ mode_requests token inst).
  { intros inst s Hin. unfold create_modes, mode_requests.
    rewrite <- flat_map_singleton.
    apply for_each_requests. intros mode s' Hmode.
    apply create_mode_resilient; auto.
    pose proof operation_modes_named as Hn. rewrite Forall_forall in Hn. auto. }
  pose proof (for_each_requests w insts (create_modes token) (mode_requests token)
                Hmodes) as Hstage.
  unfold create_operation_modes.
  split.
  - unfold bind, print. simpl. apply Hstage.
  - apply issued_requests. unfold bind, print. simpl.
    destruct (Hstage (State (exchanges st)
                (stdout st ++ [[Lit nl; Lit "=== 6. Create Operation Modes ==="]])))
      as [_ H].
    exact H.
Qed.

(** Stage 7 on identified instances, against a service that answers every
    call: it returns, after one learning call for each instance. *)
Lemma start_baseline_learning_run (w : world) (token : json)
    (insts : list json) (st : state) :
  never_fails w ->
  Forall identified insts ->
  fst (start_baseline_learning token (JArray insts) w st) = Returned tt
  /\ requests (snd (start_baseline_learning token (JArray insts) w st))
     = requests st ++ map (learn_request w token) insts.
Proof.
  intros Hw Hinsts. rewrite Forall_forall in Hinsts.
  pose proof (for_each_requests w insts
                (start_learning token (now_ms w - 60 * 60 * 1000) (now_ms w))
                (fun inst => [learn_request w token inst])
                (fun inst s Hin =>
                   start_learning_resilient w token inst _ _ s Hw (Hinsts inst Hin)))
    as Hstage.
  unfold start_baseline_learning.
  split.
  - unfold bind, print, time_ms. simpl. apply Hstage.
  - unfold bind, print, time_ms. simpl.
    rewrite <- flat_map_singleton.
    destruct (Hstage (State (exchanges st)
                (stdout st ++ [[Lit nl; Lit "=== 7. Start Baseline Learning ==="]])))
      as [_ H].
    exact H.
Qed.

(** X12. Against a service that answers every call, stage 7 returns for a
    working set of identified instances whatever the statuses are, and
    makes exactly one learning call for each instance, in the order of the
    instances, all with the same window. *)
Theorem learning_started_for_every_instance (w : world) (token : json)
    (insts : list json) (st : state) :
  never_fails w ->
  Forall identified insts ->
  fst (start_baseline_learning token (JArray insts) w st) = Returned tt
  /\ map fst (issued (start_baseline_learning token (JArray insts)) w st)
     = map (learn_request w token) insts.
Proof.
  intros Hw Hinsts.
  destruct (start_baseline_learning_run w token insts st Hw Hinsts) as [Hret Hreq].
  split; [exact Hret | now apply issued_requests].
Qed.

Lemma all_conflicts_never_fails : never_fails all_conflicts.
Proof. intros history r. discriminate. Qed.

Lemma stored_instances_identified :
  Forall identified
    [unknown_instance; stored_instance "I-1" "Motor-001" "Main Drive Motor #1"].
Proof. repeat constructor; do 2 eexists; split; reflexivity. Qed.

Lemma modes_posted_for_every_instance_witness :
  fst (create_operation_modes (JString "abc")
         (JArray [unknown_instance;
                  stored_instance "I-1" "Motor-001" "Main Drive Motor #1"])
         all_conflicts initial) = Returned tt
  /\ map fst (issued (create_operation_modes (JString "abc")
                        (JArray [unknown_instance;
                                 stored_instance "I-1" "Motor-001" "Main Drive Motor #1"]))
                     all_conflicts initial)
     = flat_map (mode_requests (JString "abc"))
         [unknown_instance; stored_instance "I-1" "Motor-001" "Main Drive Motor #1"].
Proof.
  apply (modes_posted_for_every_instance all_conflicts (JString "abc")
           [unknown_instance; stored_instance "I-1" "Motor-001" "Main Drive Motor #1"]
           initial all_conflicts_never_fails stored_instances_identified).
Defined.

Lemma learning_started_for_every_instance_witness :
  fst (start_baseline_learning (JString "abc")
         (JArray [unknown_instance;
                  stored_instance "I-1" "Motor-001" "Main Drive Motor #1"])
         all_conflicts initial) = Returned tt
  /\ map fst (issued (start_baseline_learning (JString "abc")
                        (JArray [unknown_instance;
                                 stored_instance "I-1" "Motor-001" "Main Drive Motor #1"]))
                     all_conflicts initial)
     = map (learn_request all_conflicts (JString "abc"))
         [unknown_instance; stored_instance "I-1" "Motor-001" "Main Drive Motor #1"].
Proof.
  apply (learning_started_for_every_instance all_conflicts (JString "abc")
           [unknown_instance; stored_instance "I-1" "Motor-001" "Main Drive Motor #1"]
           initial all_conflicts_never_fails stored_instances_identified).
Defined.

(** * Verification and diagnosis *)

(** X13. In stage 8, a detail call whose answer is not a dict (in
    particular any HTTP error, whose body is kept as text) ends the run
    with an [AttributeError]: the answer is read with [.get] without a
    look at the status. *)
Theorem detail_that_is_not_a_dict_aborts (w : world) (token inst id name detail : json)
    (st : state) :
  getitem inst "instanceId" = Returned id ->
  getitem inst "name" = Returned name ->
  body_of (server w (exchanges st) (detail_request id token)) = Some detail ->
  is_dict detail = false ->
  fst (show_detail token inst w st) = Raised AttributeError
  /\ map fst (issued (show_detail token inst) w st) = [detail_request id token].
Proof.
  intros Hid Hname Hbody Hdict.
  assert (Hget : dict_get detail "model" JNull = Raised AttributeError)
    by (destruct detail; simpl in *; congruence).
  assert (Hrun : exists out,
            show_detail token inst w st
            = (Raised AttributeError,
               State (exchanges st
                        ++ [(detail_request id token,
                             server w (exchanges st) (detail_request id token))])
                     out)).
  { unfold show_detail, bind. rewrite Hid. cbn [eval ret].
    rewrite api_request_run. cbv zeta. fold (detail_request id token).
    destruct (server w (exchanges st) (detail_request id token))
      as [status body | code text | e]; simpl in Hbody; [| | discriminate];
      inversion Hbody; subst detail; cbn [fst snd]; rewrite Hname;
      cbn [eval ret print]; rewrite Hget; cbn [eval raise];
      eexists; reflexivity. }
  destruct Hrun as [out Hrun]. split; [now rewrite Hrun |].
  apply issued_requests. rewrite Hrun. unfold requests. simpl.
  now rewrite map_app.
Qed.

Lemma detail_that_is_not_a_dict_aborts_witness :
  fst (show_detail (JString "abc")
         (stored_instance "I-1" "Motor-001" "Main Drive Motor #1")
         all_conflicts initial) = Raised AttributeError
  /\ map fst (issued (show_detail (JString "abc")
                        (stored_instance "I-1" "Motor-001" "Main Drive Motor #1"))
                     all_conflicts initial)
     = [detail_request (JString "I-1") (JString "abc")].
Proof.
  apply (detail_that_is_not_a_dict_aborts all_conflicts (JString "abc")
           (stored_instance "I-1" "Motor-001" "Main Drive Motor #1")
           (JString "I-1") (JString "Main Drive Motor #1")
           (JString "already exists") initial);
    reflexivity.
Defined.

(** X14. In stage 9, a diagnosis answered with a status other than 200 is
    printed and the loop goes on, and so is a 200 whose body is a dict,
    with or without a health score; a 200 whose body is not a dict ends the
    run with an [AttributeError]. *)
Theorem diagnosis_outcomes (w : world) (token inst id name result : json)
    (status : Z) (st : state) :
  getitem inst "instanceId" = Returned id ->
  getitem inst "name" = Returned name ->
  status_of (server w (exchanges st) (diagnose_request id token)) = Some status ->
  body_of (server w (exchanges st) (diagnose_request id token)) = Some result ->
  fst (diagnose token inst w st)
  = if (status =? 200) && negb (is_dict result)
    then Raised AttributeError else Returned tt.
Proof.
  intros Hid Hname Hstatus Hbody.
  unfold diagnose, bind. rewrite Hid. cbn [eval ret].
  rewrite api_request_run. cbv zeta. fold (diagnose_request id token).
  destruct (server w (exchanges st) (diagnose_request id token))
    as [s body | code text | e]; simpl in Hstatus, Hbody; [| | discriminate];
    inversion Hstatus; subst; inversion Hbody; subst; cbn [fst snd];
    destruct (status =? 200); rewrite Hname; cbn [eval ret andb];
    try reflexivity.
  destruct (unwrap_items body) as [ | | | | | | kv]; try reflexivity.
  simpl. destruct (lookup "healthScore" kv); reflexivity.
Qed.

Lemma diagnosis_outcomes_witness :
  fst (diagnose (JString "abc")
         (stored_instance "I-1" "Motor-001" "Main Drive Motor #1")
         (always (JArray [])) initial) = Raised AttributeError.
Proof.
  apply (diagnosis_outcomes (always (JArray [])) (JString "abc")
           (stored_instance "I-1" "Motor-001" "Main Drive Motor #1")
           (JString "I-1") (JString "Main Drive Motor #1") (JArray []) 200 initial);
    reflexivity.
Defined.

(** * Stage 3 reads and nothing more *)

Lemma issued_bind_quiet {A B} (m : M A) (k : A -> M B) (w : world) (st : state)
    (new : list exchange) :
  exchanges (snd (m w st)) = exchanges st ++ new ->
  (forall a, emits w (fun _ => False) (k a)) ->
  issued (a <- m ;; k a) w st = new.
Proof.
  intros E Hk. unfold issued, bind.
  destruct (m w st) as [[a | e] st1]; simpl in E.
  - destruct (Hk a st1) as [[rest [E' F]] _].
    destruct rest as [| x rest]; [| inversion F; contradiction].
    now rewrite E', E, app_nil_r, skipn_length_app.
  - simpl. now rewrite E, skipn_length_app.
Qed.

(** X15. Stage 3 makes exactly one call, the [GET] of the devices, whatever
    the answer; and an answer that is a list (bare, or the items of a page)
    is its result as it is, whatever the list holds. *)
Theorem devices_stage_makes_one_call (w : world) (token : json) (st : state) :
  issued (get_devices token) w st
  = [(devices_request token, server w (exchanges st) (devices_request token))]
  /\ forall ds,
       body_of (server w (exchanges st) (devices_request token)) = Some (JArray ds) ->
       fst (get_devices token w st) = Returned (JArray ds).
Proof.
  split.
  - unfold get_devices. rewrite issued_after_print.
    apply issued_bind_quiet.
    + rewrite api_request_run. reflexivity.
    + intros [status devices]. emits_script.
  - intros ds Hbody. unfold get_devices. unfold bind at 1 2, print at 1.
    rewrite api_request_run. cbv zeta. cbn [exchanges stdout].
    fold (devices_request token).
    destruct (server w (exchanges st) (devices_request token))
      as [status body | code text | e]; simpl in Hbody; try discriminate.
    inversion Hbody as [Hb]. cbn [fst snd]. rewrite Hb. cbn [is_str is_dict].
    unfold bind at 1. cbn [ret].
    match goal with
    | |- fst (bind (eval (len ?d)) _ _ ?s0) = _ =>
        apply (get_devices_tail d w s0 (Z.of_nat (List.length ds)) ds); reflexivity
    end.
Qed.

Lemma devices_stage_makes_one_call_witness :
  fst (get_devices (JString "abc") (always (JArray [JInt 1; JNull])) initial)
  = Returned (JArray [JInt 1; JNull]).
Proof.
  destruct (devices_stage_makes_one_call (always (JArray [JInt 1; JNull]))
              (JString "abc") initial) as [_ H].
  apply H. reflexivity.
Defined.

(** * Working sets that are not lists of instances *)

(** The loop of stage 5 visits the characters of a text, and a character
    has no ['deviceId']. *)
Lemma create_parameter_mappings_of_text (w : world) (token : json) (st : state)
    (c : ascii) (s : string) :
  exists out,
    create_parameter_mappings token (JString (String c s)) w st
    = (Raised TypeError, State (exchanges st) out).
Proof.
  unfold create_parameter_mappings, create_mappings, bind, print. simpl.
  eexists. reflexivity.
Qed.

(** X16. When both instance creations are rejected and the [GET] of the
    instances is answered with an HTTP error, stage 4 returns the text of
    the error as its working set, and stage 5 then ends the run with a
    [TypeError] before making any request (unless the text is empty). *)
Theorem failed_discovery_aborts_stage_5 (w : world) (token created_models : json)
    (st st' : state) (insts : list json) (code : Z) (c : ascii) (s : string) :
  rejects_creations w "/motor-instances" token ->
  fst (motor_instances created_models w st) = Returned insts ->
  (forall history,
     server w history (collection_request "/motor-instances" token)
     = HTTPError code (String c s)) ->
  fst (create_motor_instances token created_models w st)
    = Returned (JString (String c s))
  /\ fst (create_parameter_mappings token (JString (String c s)) w st')
     = Raised TypeError
  /\ issued (create_parameter_mappings token (JString (String c s))) w st' = [].
Proof.
  intros Hrejected Hbuilt Hget. split.
  - rewrite create_motor_instances_is.
    destruct (motor_instances_returned _ _ _ _ Hbuilt)
      as (models & first & pick & id1 & id2 & _ & _ & _ & _ & _ & _ & ->).
    destruct (motor_instances_pure created_models) as [o Hpure].
    rewrite Hpure in Hbuilt. simpl in Hbuilt. subst o.
    destruct (create_or_discover_falls_back "/motor-instances" "instanceId" token w
                [Lit "No instances created, checking existing..."]
                (fun n => [Lit "  Found "; Fmt (JInt n); Lit " existing instances"])
                Hrejected (instance_payloads id1 id2)
                (State (exchanges st)
                   (stdout st ++ [[Lit nl; Lit "=== 4. Create Motor Instances ==="]]))
                (instance_payloads_named id1 id2))
      as (posts & r & _ & _ & _ & Hr & Hfst).
    rewrite Hget in Hr. subst r.
    unfold bind, print in *. rewrite Hpure. exact Hfst.
  - destruct (create_parameter_mappings_of_text w token st' c s) as [out H].
    rewrite H. split; [reflexivity |].
    unfold issued. rewrite H. simpl.
    rewrite <- (app_nil_r (exchanges st')) at 2. apply skipn_length_app.
Qed.

Lemma failed_discovery_aborts_stage_5_witness :
  fst (create_motor_instances (JString "abc")
         (JArray [stored_model "M-1" "Standard Induction Motor 15kW"])
         all_conflicts initial)
    = Returned (JString "already exists")
  /\ fst (create_parameter_mappings (JString "abc") (JString "already exists")
            all_conflicts initial)
     = Raised TypeError
  /\ issued (create_parameter_mappings (JString "abc") (JString "already exists"))
            all_conflicts initial = [].
Proof.
  apply (failed_discovery_aborts_stage_5 all_conflicts (JString "abc")
           (JArray [stored_model "M-1" "Standard Induction Motor 15kW"])
           initial initial (instance_payloads (JString "M-1") (JString "M-1"))
           409 "a"%char "lready exists").
  - intros history item. exists 409. split; [reflexivity | lia].
  - reflexivity.
  - reflexivity.
Defined.

(** * The learning calls of a run *)

Lemma learn_request_window (w : world) (token inst : json) :
  one_hour_window w (learn_request w token inst)
  /\ req_url (learn_request w token inst) = learn_all_url (instance_id inst).
Proof.
  split; [apply one_hour_window_built | reflexivity].
Qed.

Lemma fresh_never_fails : never_fails fresh.
Proof.
  intros history r. simpl. unfold fresh_server.
  repeat match goal with
         | |- context [if ?b then _ else _] => destruct b
         end; discriminate.
Qed.

(** C6. Every baseline-learning request of a run carries a window
    [{startTs, endTs}] with [endTs - startTs = 3600000], where [endTs] is the
    clock reading in milliseconds; and a run that reaches stage 7 with a
    working set of identified instances, against a service that answers
    every call, submits such a request for every instance: right after the
    requests of stage 6 come the learning requests of the instances of the
    working set, one for each and in their order. *)
Theorem learning_window_is_one_hour (w : world) :
  Forall (fun r => (exists id, req_url r = learn_all_url id) -> one_hour_window w r)
         (requests (snd (run_main w)))
  /\ (forall token insts st,
        never_fails w ->
        reaches_learning w token (JArray insts) st ->
        Forall identified insts ->
        (exists rest,
           requests (snd (run_main w))
           = requests st ++ map (learn_request w token) insts ++ rest)
        /\ Forall (fun inst =>
                     one_hour_window w (learn_request w token inst)
                     /\ req_url (learn_request w token inst)
                        = learn_all_url (instance_id inst))
                  insts).
Proof.
  split; [apply learn_all_requests_have_one_hour_window |].
  intros token insts st Hw
    (st1 & cm & st2 & d & st3 & st4 & st5 & H1 & H2 & H3 & H4 & H5 & H6) Hinsts.
  split.
  - destruct (start_baseline_learning_run w token insts st Hw Hinsts) as [Hret Hreq].
    assert (Hrest : forall u : unit,
              emits w (fun _ => True)
                (instances <- verify_results token ;; test_diagnosis token instances))
      by (intros u; emits_script; exact I).
    rewrite main_run, H1. unfold after_login.
    unfold bind at 1. rewrite H2.
    unfold bind at 1. rewrite H3.
    unfold bind at 1. rewrite H4.
    unfold bind at 1. rewrite H5.
    unfold bind at 1. rewrite H6.
    unfold bind at 1.
    destruct (start_baseline_learning token (JArray insts) w st) as [[[] | e] st7];
      simpl in Hret, Hreq; [| discriminate].
    destruct (Hrest tt st7) as [[new [E _]] _].
    exists (map fst new). unfold requests in *. rewrite E, map_app.
    change (map fst (exchanges st7)) with (requests st7) in *.
    etransitivity; [apply f_equal2; [exact Hreq | reflexivity] |].
    now rewrite <- app_assoc.
  - rewrite Forall_forall. intros inst _. apply learn_request_window.
Qed.

Lemma learning_window_is_one_hour_witness :
  (exists rest,
     requests (snd (run_main fresh))
     = requests fresh_before_learning
       ++ map (learn_request fresh (JString "abc")) fresh_instances ++ rest)
  /\ Forall (fun inst =>
               one_hour_window fresh (learn_request fresh (JString "abc") inst)
               /\ req_url (learn_request fresh (JString "abc") inst)
                  = learn_all_url (instance_id inst))
            fresh_instances.
Proof.
  destruct (learning_window_is_one_hour fresh) as [_ H].
  apply (H (JString "abc") fresh_instances fresh_before_learning).
  - exact fresh_never_fails.
  - exists fresh_after_login, fresh_models, fresh_after_models, fresh_devices,
      fresh_after_devices, fresh_after_instances, fresh_after_mappings.
    repeat split; vm_compute; reflexivity.
  - repeat constructor; do 2 eexists; split; reflexivity.
Defined.
